(** * chart-mcp-server: colour themes and the validation decorator

    A shallow embedding of the decision logic of [src/main_optimized.py]:
    the [ColorTheme] registry, [get_elegant_color], [get_palette_colors]
    and the decorator [validate_and_parse_data].  Python dictionaries are
    finite maps ([gmap]), [None]-able strings are [option string], Python
    integers are [Z]. *)

From Stdlib Require Import ZArith String Ascii.
From stdpp Require Import gmap strings list fin_maps.

Local Open Scope string_scope.
Local Open Scope Z_scope.

(* ===================================================================== *)
(** ** The colour theme registry *)
(* ===================================================================== *)

Module ColorTheme.

(** One entry of [ELEGANT_PALETTES]: the dictionary with the keys
    "primary", "secondary", "accent", "light" and "gradient". *)
Record Palette := mkPalette {
  primary : string;
  secondary : string;
  accent : string;
  light : string;
  gradient : list string
}.

Definition ocean : Palette :=
  mkPalette "#0066CC" "#4A90E2" "#7BB3FF" "#E6F2FF"
            ["#0066CC"; "#4A90E2"; "#7BB3FF"; "#A8CCFF"; "#D4E6FF"].

Definition sunset : Palette :=
  mkPalette "#FF6B6B" "#FF8E53" "#FFB347" "#FFF0E6"
            ["#FF6B6B"; "#FF8E53"; "#FFB347"; "#FFD166"; "#FFE6A6"].

Definition forest : Palette :=
  mkPalette "#2D6A4F" "#52B788" "#95D5B2" "#E9F5EC"
            ["#2D6A4F"; "#52B788"; "#95D5B2"; "#B7E4C7"; "#D8F3DC"].

Definition violet : Palette :=
  mkPalette "#5E60CE" "#7B68EE" "#B4A7D6" "#F0E6FF"
            ["#5E60CE"; "#7B68EE"; "#9B7BD8"; "#B4A7D6"; "#D1C4E9"].

Definition coral : Palette :=
  mkPalette "#FF7F7F" "#FF9999" "#FFB3B3" "#FFE6E6"
            ["#FF7F7F"; "#FF9999"; "#FFB3B3"; "#FFCCCC"; "#FFE6E6"].

#[global] Instance Palette_inhabited : Inhabited Palette := populate ocean.

#[global] Instance Palette_eq_dec : EqDecision Palette.
Proof. solve_decision. Defined.

Definition ELEGANT_PALETTES : gmap string Palette :=
  list_to_map
    [ ("ocean", ocean); ("sunset", sunset); ("forest", forest);
      ("violet", violet); ("coral", coral) ].

End ColorTheme.

Import ColorTheme.

(** [d.get(k, v)] on a dictionary. *)
Definition dict_get {V} (d : gmap string V) (k : string) (v : V) : V :=
  default v (d !! k).

(** Python truthiness of an [Optional[str]]: [None] and the empty string are falsy. *)
Definition truthy (s : option string) : bool :=
  match s with
  | None => false
  | Some s => negb (String.eqb s EmptyString)
  end.

(** [x == "lit"] for an [Optional[str]] [x]. *)
Definition eq_str (x : option string) (lit : string) : bool :=
  match x with
  | None => false
  | Some s => String.eqb s lit
  end.

(** The local table [palette_mapping] of [get_elegant_color]. *)
Definition palette_mapping : gmap string string :=
  list_to_map
    [ ("line", "ocean"); ("column", "ocean"); ("bar", "ocean");
      ("area", "sunset"); ("pie", "coral"); ("scatter", "violet");
      ("radar", "forest"); ("histogram", "ocean"); ("treemap", "sunset");
      ("dual_axes", "violet") ].

(** [palette_mapping.get(chart_type, "ocean")]; [None] is not a key. *)
Definition palette_mapping_get (chart_type : option string) : string :=
  match chart_type with
  | None => "ocean"
  | Some c => dict_get palette_mapping c "ocean"
  end.

(** The dictionary returned by [get_elegant_color]. *)
Record ResolvedColor := mkResolved {
  r_primary : string;
  r_secondary : string;
  r_accent : string;
  r_light : string;
  r_gradient : list string;
  r_palette_name : option string
}.

(** The first half of [get_elegant_color]: the value of the variable
    [palette_name] when line 155 is reached. *)
Definition select_palette_name
    (chart_type palette_name data_context : option string) : option string :=
  if negb (truthy palette_name) then
    if eq_str chart_type "temperature" || eq_str data_context "temperature" then
      Some "sunset"
    else if eq_str chart_type "sales" || eq_str data_context "sales" then
      Some "ocean"
    else if eq_str chart_type "progress" || eq_str data_context "progress" then
      Some "forest"
    else if eq_str chart_type "comparison" || eq_str chart_type "dual_axes" then
      Some "violet"
    else
      Some (palette_mapping_get chart_type)
  else palette_name.

(** [ColorTheme.ELEGANT_PALETTES.get(name, ColorTheme.ELEGANT_PALETTES["ocean"])] *)
Definition registry_lookup (name : option string) : Palette :=
  match name with
  | None => ELEGANT_PALETTES !!! "ocean"
  | Some n => dict_get ELEGANT_PALETTES n (ELEGANT_PALETTES !!! "ocean")
  end.

Definition get_elegant_color
    (chart_type palette_name data_context : option string) : ResolvedColor :=
  let palette_name := select_palette_name chart_type palette_name data_context in
  let palette := registry_lookup palette_name in
  {| r_primary := primary palette;
     r_secondary := secondary palette;
     r_accent := accent palette;
     r_light := light palette;
     r_gradient := gradient palette;
     r_palette_name := palette_name |}.

(** [range(n)] *)
Definition py_range (n : Z) : list Z := Z.of_nat <$> seq 0 (Z.to_nat n).

(** [a % b]; [None] stands for [ZeroDivisionError].  For [b > 0] Python's
    [%] is the floored remainder, which is [Z.modulo]. *)
Definition py_mod (a b : Z) : option Z :=
  if b =? 0 then None else Some (a mod b).

(** [l[k]]; a negative index counts from the end and [None] stands for
    [IndexError]. *)
Definition py_index {A} (l : list A) (k : Z) : option A :=
  let n := Z.of_nat (length l) in
  if 0 <=? k then l !! Z.to_nat k
  else if 0 <=? n + k then l !! Z.to_nat (n + k)
  else None.

(** [l[:n]]; a negative bound counts from the end. *)
Definition py_slice_to {A} (l : list A) (n : Z) : list A :=
  if 0 <=? n then take (Z.to_nat n) l
  else take (Z.to_nat (Z.of_nat (length l) + n)) l.

(** [get_palette_colors(palette_name, count)]; [None] stands for a raised
    exception. *)
Definition get_palette_colors (palette_name : string) (count : Z)
    : option (list string) :=
  let palette := registry_lookup (Some palette_name) in
  let colors := gradient palette in
  if Z.of_nat (length colors) <? count then
    mapM (fun i => k ← py_mod i (Z.of_nat (length colors)); py_index colors k)
         (py_range count)
  else Some (py_slice_to colors count).

(* ===================================================================== *)
(** ** Values, envelopes and effects of the decorator *)
(* ===================================================================== *)

(** What a tool call carries and what [json.loads] returns: [None],
    booleans, integers, floats (kept as their literal), strings, lists and
    dictionaries with string keys (insertion order kept). *)
#[warnings="-register-all"] Inductive json :=
| JNone
| JBool (b : bool)
| JInt (n : Z)
| JFloat (literal : string)
| JStr (s : string)
| JList (l : list json)
| JDict (d : list (string * json)).

(** A [pd.DataFrame] seen through its two axes: the column labels and the
    rows of cells.  [df_empty] is the property [.empty]: true when either
    axis has length zero. *)
Record DataFrame := mkFrame {
  df_columns : list json;
  df_rows : list (list json)
}.

Definition df_empty (f : DataFrame) : bool :=
  (length (df_rows f) =? 0)%nat || (length (df_columns f) =? 0)%nat.

(** A value held by [kwargs]: a JSON-like value, or a frame once the
    decorator has converted [data]. *)
Inductive value :=
| VJson (j : json)
| VFrame (f : DataFrame).

Definition is_none (v : value) : bool :=
  match v with VJson JNone => true | _ => false end.

(** The two result dictionaries. *)
Definition fail_envelope (error : string) : value :=
  VJson (JDict [("success", JBool false); ("error", JStr error)]).

Definition ok_envelope (image_url message : string) : value :=
  VJson (JDict [("success", JBool true); ("image_url", JStr image_url);
                ("message", JStr message)]).

(** Instances of [Exception]; [str(e)] is the carried message.
    [json.JSONDecodeError] is kept apart because the inner handlers catch
    only it. *)
Inductive exn :=
| JSONDecodeError (msg : string)
| OtherException (msg : string).

Definition exn_str (e : exn) : string :=
  match e with JSONDecodeError m => m | OtherException m => m end.

Inductive outcome (A : Type) :=
| Return (a : A)
| Raise (e : exn).
Arguments Return {A} a.
Arguments Raise {A} e.

(** Observable effects of a wrapped call: the wrapped function being
    entered (what a spy on it records) and [logger.error]. *)
Inductive event :=
| EvCall (args : list value) (kwargs : gmap string value)
| EvLogError (msg : string).

(** Control flow inside a function body: fall through to the next
    statement, [return v], or a raised exception. *)
Inductive flow (A : Type) :=
| Continue (a : A)
| ReturnEarly (v : value)
| Raised (e : exn).
Arguments Continue {A} a.
Arguments ReturnEarly {A} v.
Arguments Raised {A} e.

Definition M (A : Type) : Type := list event -> flow A * list event.

Definition ret {A} (a : A) : M A := fun tr => (Continue a, tr).

Definition bind {A B} (m : M A) (k : A -> M B) : M B :=
  fun tr =>
    match m tr with
    | (Continue a, tr') => k a tr'
    | (ReturnEarly v, tr') => (ReturnEarly v, tr')
    | (Raised e, tr') => (Raised e, tr')
    end.

Notation "'let*' x ':=' m 'in' k" := (bind m (fun x => k))
  (at level 10, x name, m at level 100, k at level 200).

(** The statement [return v]. *)
Definition return_ {A} (v : value) : M A := fun tr => (ReturnEarly v, tr).

(** A call into a library that either returns or raises. *)
Definition lift {A} (o : outcome A) : M A :=
  fun tr => (match o with Return a => Continue a | Raise e => Raised e end, tr).

Definition log_error (msg : string) : M unit :=
  fun tr => (Continue tt, (tr ++ [EvLogError msg])%list).

(** [try: m except json.JSONDecodeError as e: h e] *)
Definition try_except_JSONDecodeError {A} (m : M A) (h : exn -> M A) : M A :=
  fun tr =>
    match m tr with
    | (Raised (JSONDecodeError msg), tr') => h (JSONDecodeError msg) tr'
    | r => r
    end.

(** [try: m except Exception as e: h e] *)
Definition try_except_Exception {A} (m : M A) (h : exn -> M A) : M A :=
  fun tr =>
    match m tr with
    | (Raised e, tr') => h e tr'
    | r => r
    end.

(** A callable: given positional and keyword arguments and the events so
    far, it returns or raises and may add events. *)
Definition callable : Type :=
  list value -> gmap string value -> list event -> outcome value * list event.

(** The expression [func( *args, **kwargs)]. *)
Definition call (func : callable) (args : list value)
    (kwargs : gmap string value) : M value :=
  fun tr =>
    match func args kwargs (tr ++ [EvCall args kwargs])%list with
    | (Return v, tr') => (Continue v, tr')
    | (Raise e, tr') => (Raised e, tr')
    end.

(** A whole function body as a callable result: falling off the end is
    not possible in the bodies below, which all end in [return]. *)
Definition run_body (m : M value) (tr : list event)
    : outcome value * list event :=
  match m tr with
  | (Continue v, tr') => (Return v, tr')
  | (ReturnEarly v, tr') => (Return v, tr')
  | (Raised e, tr') => (Raise e, tr')
  end.

(* ===================================================================== *)
(** ** The decorator [validate_and_parse_data] *)
(* ===================================================================== *)

Section Decorator.

(** The two library entry points the decorator calls: [json.loads] on a
    [str] and the constructor [pd.DataFrame] on a [list]. *)
Variable json_loads : string -> outcome json.
Variable pd_DataFrame : list json -> outcome DataFrame.

(** Lines 322-329: [data] given as text. *)
Definition parse_data (kwargs : gmap string value) : M (gmap string value) :=
  match kwargs !! "data" with
  | Some (VJson (JStr s)) =>
      try_except_JSONDecodeError
        (let* j := lift (json_loads s) in
         ret (<["data" := VJson j]> kwargs))
        (fun e => return_ (fail_envelope ("数据解析失败: " ++ exn_str e)))
  | _ => ret kwargs
  end.

(** Lines 332-333: a list becomes a frame. *)
Definition frame_data (kwargs : gmap string value) : M (gmap string value) :=
  match kwargs !! "data" with
  | Some (VJson (JList l)) =>
      let* f := lift (pd_DataFrame l) in
      ret (<["data" := VFrame f]> kwargs)
  | _ => ret kwargs
  end.

(** Lines 321-333. *)
Definition process_data (kwargs : gmap string value) : M (gmap string value) :=
  match kwargs !! "data" with
  | Some v =>
      if is_none v then ret kwargs
      else
        let* kwargs := parse_data kwargs in
        frame_data kwargs
  | None => ret kwargs
  end.

(** Lines 336-344. *)
Definition process_words (kwargs : gmap string value) : M (gmap string value) :=
  match kwargs !! "words" with
  | Some (VJson (JStr s)) =>
      try_except_JSONDecodeError
        (let* j := lift (json_loads s) in
         ret (<["words" := VJson j]> kwargs))
        (fun e => return_ (fail_envelope ("词云数据解析失败: " ++ exn_str e)))
  | _ => ret kwargs
  end.

(** Lines 348-366: the loop over [required_fields]. *)
Fixpoint check_required (fields : list string) (kwargs : gmap string value)
    : M unit :=
  match fields with
  | [] => ret tt
  | field :: fields =>
      match kwargs !! field with
      | None =>
          return_ (fail_envelope ("参数 '" ++ field ++ "' 是必需的"))
      | Some value =>
          if is_none value then
            return_ (fail_envelope ("参数 '" ++ field ++ "' 不能为空"))
          else
            match value with
            | VFrame f =>
                if df_empty f then
                  return_ (fail_envelope
                             ("参数 '" ++ field ++ "' 的数据不能为空"))
                else check_required fields kwargs
            | _ => check_required fields kwargs
            end
      end
  end.

(** Line 347: [if required_fields:] is false for [None] and for [[]]. *)
Definition validate_required (required_fields : option (list string))
    (kwargs : gmap string value) : M unit :=
  match required_fields with
  | None | Some [] => ret tt
  | Some fields => check_required fields kwargs
  end.

(** Lines 318-375: [wrapper( *args, **kwargs)]. *)
Definition wrapper (required_fields : option (list string))
    (func : callable) : callable :=
  fun args kwargs =>
    run_body
      (try_except_Exception
         (let* kwargs := process_data kwargs in
          let* kwargs := process_words kwargs in
          let* _ := validate_required required_fields kwargs in
          let* v := call func args kwargs in
          return_ v)
         (fun e =>
            let* _ := log_error ("数据处理错误: " ++ exn_str e) in
            return_ (fail_envelope ("数据处理异常: " ++ exn_str e)))).

(** Lines 320-344: the two parsing steps, before any field is checked. *)
Definition normalise (kwargs : gmap string value) : M (gmap string value) :=
  let* kwargs := process_data kwargs in
  process_words kwargs.

(** Everything [wrapper] does before it calls [func] (lines 320-366),
    yielding the keyword arguments [func] will be called with. *)
Definition precheck (required_fields : option (list string))
    (kwargs : gmap string value) : M (gmap string value) :=
  let* kwargs := process_data kwargs in
  let* kwargs := process_words kwargs in
  let* _ := validate_required required_fields kwargs in
  ret kwargs.

(** [validate_and_parse_data(required_fields)(func)] *)
Definition validate_and_parse_data (required_fields : option (list string))
    (func : callable) : callable :=
  wrapper required_fields func.

End Decorator.

(* ===================================================================== *)
(** ** Exceptions that [except Exception] does not catch *)
(* ===================================================================== *)

(** What a wrapped function can raise: an instance of [Exception], or an
    exception that derives from [BaseException] only ([SystemExit],
    [KeyboardInterrupt], [GeneratorExit]), given by its class name and
    its text. *)
Inductive raised :=
| IsException (e : exn)
| BaseOnly (class_name : string) (msg : string).

Inductive result (A : Type) :=
| Returned (a : A)
| Raising (r : raised).
Arguments Returned {A} a.
Arguments Raising {A} r.

(** A function body that may raise anything. *)
Definition body : Type :=
  list value -> gmap string value -> list event -> result value * list event.

(** A callable that raises instances of [Exception] only, as a body. *)
Definition as_result {A} (r : outcome A * list event)
    : result A * list event :=
  match r with
  | (Return a, tr) => (Returned a, tr)
  | (Raise e, tr) => (Raising (IsException e), tr)
  end.

Definition as_body (func : callable) : body :=
  fun args kwargs tr => as_result (func args kwargs tr).

(** Control flow as in [flow], with any raised exception. *)
Inductive flow_any (A : Type) :=
| Going (a : A)
| Returning (v : value)
| Throwing (r : raised).
Arguments Going {A} a.
Arguments Returning {A} v.
Arguments Throwing {A} r.

Definition MA (A : Type) : Type := list event -> flow_any A * list event.

Definition bind_any {A B} (m : MA A) (k : A -> MA B) : MA B :=
  fun tr =>
    match m tr with
    | (Going a, tr') => k a tr'
    | (Returning v, tr') => (Returning v, tr')
    | (Throwing r, tr') => (Throwing r, tr')
    end.

Definition returning {A} (v : value) : MA A := fun tr => (Returning v, tr).

(** A step of the decorator itself, which raises instances of [Exception]
    only. *)
Definition of_M {A} (m : M A) : MA A :=
  fun tr =>
    match m tr with
    | (Continue a, tr') => (Going a, tr')
    | (ReturnEarly v, tr') => (Returning v, tr')
    | (Raised e, tr') => (Throwing (IsException e), tr')
    end.

(** The expression [func( *args, **kwargs)] for such a body. *)
Definition call_any (func : body) (args : list value)
    (kwargs : gmap string value) : MA value :=
  fun tr =>
    match func args kwargs (tr ++ [EvCall args kwargs])%list with
    | (Returned v, tr') => (Going v, tr')
    | (Raising r, tr') => (Throwing r, tr')
    end.

(** [try: m except Exception as e: h e]: what is not an instance of
    [Exception] passes through. *)
Definition try_except_Exception_any {A} (m : MA A) (h : exn -> MA A) : MA A :=
  fun tr =>
    match m tr with
    | (Throwing (IsException e), tr') => h e tr'
    | r => r
    end.

Definition run_body_any (m : MA value) (tr : list event)
    : result value * list event :=
  match m tr with
  | (Going v, tr') => (Returned v, tr')
  | (Returning v, tr') => (Returned v, tr')
  | (Throwing r, tr') => (Raising r, tr')
  end.

Section DecoratorAny.

Variable json_loads : string -> outcome json.
Variable pd_DataFrame : list json -> outcome DataFrame.

(** Lines 318-375 once more, [wrapper( *args, **kwargs)] around a body
    that may raise anything. *)
Definition wrapper_any (required_fields : option (list string))
    (func : body) : body :=
  fun args kwargs =>
    run_body_any
      (try_except_Exception_any
         (bind_any (of_M (process_data json_loads pd_DataFrame kwargs))
            (fun kwargs =>
         bind_any (of_M (process_words json_loads kwargs))
            (fun kwargs =>
         bind_any (of_M (validate_required required_fields kwargs))
            (fun _ =>
         bind_any (call_any func args kwargs)
            (fun v => returning v)))))
         (fun e =>
            bind_any (of_M (log_error ("数据处理错误: " ++ exn_str e)))
              (fun _ =>
                 returning (fail_envelope ("数据处理异常: " ++ exn_str e))))).

End DecoratorAny.

(** The shape shared by the decorated chart tools ([generate_area_chart]
    and its siblings): plotting code that may raise, whose only [return]
    is the success dictionary built from the image URL and the message. *)
Definition chart_tool
    (plot : list value -> gmap string value -> list event ->
            result (string * string) * list event) : body :=
  fun args kwargs tr =>
    match plot args kwargs tr with
    | (Returned (image_url, message), tr') =>
        (Returned (ok_envelope image_url message), tr')
    | (Raising r, tr') => (Raising r, tr')
    end.

(* ===================================================================== *)
(** ** Executable stand-ins for the two libraries *)
(* ===================================================================== *)

(** [json.loads] and [pd.DataFrame] are not code of this repository; the
    decorator above takes them as parameters.  To run the decorator on
    concrete calls, this module gives a small reader for a subset of JSON
    (no escapes in strings, no exponents) and the frame of a list of
    records or of scalars. *)
Module Standin.

Definition quote : ascii := "034"%char.
Definition backslash : ascii := "092"%char.

Definition is_ws (c : ascii) : bool :=
  (c =? " ")%char || (c =? "009")%char || (c =? "010")%char
  || (c =? "013")%char.

Definition is_digit (c : ascii) : bool :=
  let n := nat_of_ascii c in (48 <=? n)%nat && (n <=? 57)%nat.

Fixpoint skip_ws (s : string) : string :=
  match s with
  | String c r => if is_ws c then skip_ws r else s
  | EmptyString => s
  end.

Fixpoint strip_prefix (p s : string) : option string :=
  match p, s with
  | EmptyString, _ => Some s
  | String a p', String b s' =>
      if (a =? b)%char then strip_prefix p' s' else None
  | String _ _, EmptyString => None
  end.

(** The characters up to the closing quote, and what follows it. *)
Fixpoint read_string (s : string) : option (string * string) :=
  match s with
  | EmptyString => None
  | String c r =>
      if (c =? quote)%char then Some (EmptyString, r)
      else if (c =? backslash)%char then None
      else match read_string r with
           | Some (body, rest) => Some (String c body, rest)
           | None => None
           end
  end.

Fixpoint read_digits (s : string) : string * string :=
  match s with
  | String c r =>
      if is_digit c then
        let '(ds, rest) := read_digits r in (String c ds, rest)
      else (EmptyString, s)
  | EmptyString => (EmptyString, s)
  end.

Definition digits_value (ds : string) : Z :=
  fold_left (fun acc c => 10 * acc + Z.of_nat (nat_of_ascii c - 48))
            (list_ascii_of_string ds) 0.

(** An integer or a decimal literal, after an optional sign. *)
Definition read_number (negative : bool) (s : string)
    : option (json * string) :=
  match read_digits s with
  | (EmptyString, _) => None
  | (ds, String "." r) =>
      match read_digits r with
      | (EmptyString, _) => None
      | (fs, rest) =>
          Some (JFloat ((if negative then "-" else EmptyString) ++ ds ++ "." ++ fs),
                rest)
      end
  | (ds, rest) =>
      Some (JInt (if negative then - digits_value ds else digits_value ds),
            rest)
  end.

Fixpoint parse_value (fuel : nat) (s : string) : option (json * string) :=
  match fuel with
  | O => None
  | S fuel =>
      match skip_ws s with
      | EmptyString => None
      | String c r =>
          if (c =? "[")%char then
            match skip_ws r with
            | String "]" r' => Some (JList [], r')
            | _ => parse_items fuel r []
            end
          else if (c =? "{")%char then
            match skip_ws r with
            | String "}" r' => Some (JDict [], r')
            | _ => parse_members fuel r []
            end
          else if (c =? quote)%char then
            match read_string r with
            | Some (str, rest) => Some (JStr str, rest)
            | None => None
            end
          else if (c =? "-")%char then read_number true r
          else if is_digit c then read_number false (String c r)
          else
            match strip_prefix "true" (String c r),
                  strip_prefix "false" (String c r),
                  strip_prefix "null" (String c r) with
            | Some rest, _, _ => Some (JBool true, rest)
            | _, Some rest, _ => Some (JBool false, rest)
            | _, _, Some rest => Some (JNone, rest)
            | _, _, _ => None
            end
      end
  end
with parse_items (fuel : nat) (s : string) (acc : list json)
    : option (json * string) :=
  match fuel with
  | O => None
  | S fuel =>
      match parse_value fuel s with
      | Some (v, rest) =>
          match skip_ws rest with
          | String "," rest' => parse_items fuel rest' (acc ++ [v])%list
          | String "]" rest' => Some (JList (acc ++ [v])%list, rest')
          | _ => None
          end
      | None => None
      end
  end
with parse_members (fuel : nat) (s : string) (acc : list (string * json))
    : option (json * string) :=
  match fuel with
  | O => None
  | S fuel =>
      match skip_ws s with
      | String c r =>
          if (c =? quote)%char then
            match read_string r with
            | Some (key, rest) =>
                match skip_ws rest with
                | String ":" rest' =>
                    match parse_value fuel rest' with
                    | Some (v, rest'') =>
                        match skip_ws rest'' with
                        | String "," t =>
                            parse_members fuel t (acc ++ [(key, v)])%list
                        | String "}" t =>
                            Some (JDict (acc ++ [(key, v)])%list, t)
                        | _ => None
                        end
                    | None => None
                    end
                | _ => None
                end
            | None => None
            end
          else None
      | EmptyString => None
      end
  end.

Definition json_loads (s : string) : outcome json :=
  match parse_value (S (String.length s)) s with
  | Some (v, rest) =>
      match skip_ws rest with
      | EmptyString => Return v
      | _ => Raise (JSONDecodeError "Extra data")
      end
  | None => Raise (JSONDecodeError "Expecting value")
  end.

Definition is_record (j : json) : bool :=
  match j with JDict _ => true | _ => false end.

Definition is_scalar (j : json) : bool :=
  match j with JDict _ | JList _ => false | _ => true end.

Definition record_keys (j : json) : list string :=
  match j with JDict d => d.*1 | _ => [] end.

Fixpoint assoc (k : string) (d : list (string * json)) : option json :=
  match d with
  | [] => None
  | (k', v) :: d => if String.eqb k k' then Some v else assoc k d
  end.

(** The cell of a record under a column; a missing key reads as NaN. *)
Definition cell (j : json) (column : string) : json :=
  match j with
  | JDict d => default (JFloat "nan") (assoc column d)
  | _ => JFloat "nan"
  end.

(** The class name Python prints for a value. *)
Definition type_name (j : json) : string :=
  match j with
  | JNone => "NoneType"
  | JBool _ => "bool"
  | JInt _ => "int"
  | JFloat _ => "float"
  | JStr _ => "str"
  | JList _ => "list"
  | JDict _ => "dict"
  end.

Definition is_row (j : json) : bool :=
  match j with JList _ => true | _ => false end.

Definition row_cells (j : json) : list json :=
  match j with JList cells => cells | _ => [] end.

(** A row filled up with [None] to a given width. *)
Definition padded (width : nat) (cells : list json) : list json :=
  (cells ++ replicate (width - length cells) JNone)%list.

(** The frame of a list, chosen as pandas does by the first element: a
    list of records gives one row per record, the columns being the keys
    in order of first appearance, and fails on an element that is no
    record; a list of rows gives numbered columns; any other list gives
    one column labelled 0. *)
Definition DataFrame_of (l : list json) : outcome DataFrame :=
  if forallb is_record l then
    let columns := remove_dups (mjoin (record_keys <$> l)) in
    Return (mkFrame (JStr <$> columns)
                    ((fun j => cell j <$> columns) <$> l))
  else
    match l with
    | JDict _ :: _ =>
        match filter (fun j => is_record j = false) l with
        | x :: _ =>
            Raise (OtherException
                     ("'" ++ type_name x ++ "' object has no attribute 'keys'"))
        | [] => Raise (OtherException "DataFrame constructor not properly called!")
        end
    | JList _ :: _ =>
        match filter (fun j => is_row j = false) l with
        | x :: _ =>
            Raise (OtherException
                     ("object of type '" ++ type_name x ++ "' has no len()"))
        | [] =>
            let width := foldr Nat.max 0%nat (length <$> (row_cells <$> l)) in
            Return (mkFrame ((fun i => JInt (Z.of_nat i)) <$> seq 0 width)
                            ((fun j => padded width (row_cells j)) <$> l))
        end
    | _ => Return (mkFrame [JInt 0] ((fun j => [j]) <$> l))
    end.

End Standin.

(** A JSON text written with apostrophes in place of double quotes. *)
Definition dq (s : string) : string :=
  string_of_list_ascii
    ((fun c => if (c =? "'")%char then Standin.quote else c)
       <$> list_ascii_of_string s).

(** A spy: a wrapped function that does nothing but return a success
    dictionary; its being entered is recorded by [call]. *)
Definition spy : callable :=
  fun _ _ tr => (Return (ok_envelope "http://127.0.0.1:8081/spy.png" "ok"), tr).

(** Plotting code that leaves through [sys.exit]. *)
Definition exiting_plot
    : list value -> gmap string value -> list event ->
      result (string * string) * list event :=
  fun _ _ tr => (Raising (BaseOnly "SystemExit" "1"), tr).

(** Plotting code that fails with an instance of [Exception]. *)
Definition failing_plot (msg : string)
    : list value -> gmap string value -> list event ->
      result (string * string) * list event :=
  fun _ _ tr => (Raising (IsException (OtherException msg)), tr).

(** [needle in haystack] for two strings. *)
Fixpoint py_contains (needle haystack : string) : bool :=
  if String.prefix needle haystack then true
  else match haystack with
       | EmptyString => false
       | String _ rest => py_contains needle rest
       end.

(** A wrapped function whose body raises. *)
Definition faulty (msg : string) : callable :=
  fun _ _ tr => (Raise (OtherException msg), tr).

(** A required field passes the three tests of the loop: it is a key of
    [kwargs], its value is not [None], and it is not an empty frame. *)
Definition passes (kwargs : gmap string value) (field : string) : Prop :=
  exists v, kwargs !! field = Some v
            /\ is_none v = false
            /\ forall f, v = VFrame f -> df_empty f = false.

(** The three ways a required field is at fault, each with the message
    the loop returns for it. *)
Inductive field_fault (kwargs : gmap string value) (field : string)
    : string -> Prop :=
| MissingParameter :
    kwargs !! field = None ->
    field_fault kwargs field ("参数 '" ++ field ++ "' 是必需的")
| EmptyParameter :
    kwargs !! field = Some (VJson JNone) ->
    field_fault kwargs field ("参数 '" ++ field ++ "' 不能为空")
| EmptyDataset f :
    kwargs !! field = Some (VFrame f) ->
    df_empty f = true ->
    field_fault kwargs field ("参数 '" ++ field ++ "' 的数据不能为空").

(** A value the parsing steps leave alone: anything but text and lists. *)
Definition stable (o : option value) : Prop :=
  match o with
  | Some (VJson (JStr _)) | Some (VJson (JList _)) => False
  | _ => True
  end.

(** What the outer [except Exception] makes of the wrapped function's
    outcome: a return value is handed back, a fault is logged and turned
    into the generic failure dictionary. *)
Definition guarded (r : outcome value * list event)
    : outcome value * list event :=
  match r with
  | (Return v, tr) => (Return v, tr)
  | (Raise e, tr) =>
      (Return (fail_envelope ("数据处理异常: " ++ exn_str e)),
       (tr ++ [EvLogError ("数据处理错误: " ++ exn_str e)])%list)
  end.

(** The record [{a: 1, b: 2}] and the one-row table with the columns
    [a = 1] and [b = 2]. *)
Definition record_ab : json := JDict [("a", JInt 1); ("b", JInt 2)].

Definition frame_ab : DataFrame :=
  mkFrame [JStr "a"; JStr "b"] [[JInt 1; JInt 2]].

(** The two shapes of a result dictionary. *)
Definition is_envelope (v : value) : Prop :=
  (exists image_url message, v = ok_envelope image_url message)
  \/ (exists error, v = fail_envelope error).

(** A step that neither calls the wrapped function nor logs, and whose
    only early return is a failure dictionary. *)
Definition quiet {A} (r : flow A * list event) (tr : list event) : Prop :=
  r.2 = tr
  /\ forall v, r.1 = ReturnEarly v -> exists error, v = fail_envelope error.

(** The call that passes [data] as the JSON text of one record with
    [a = 1] and [b = 2], and nothing else. *)
Definition call_ab : gmap string value :=
  {[ "data" := VJson (JStr (dq "[{'a':1,'b':2}]")) ]}.

(** The call that passes [data] as a list of one record and [y_field],
    but no [x_field]. *)
Definition call_without_x : gmap string value :=
  {[ "data" := VJson (JList [JDict [("a", JInt 1)]]);
     "y_field" := VJson (JStr "a") ]}.

(** The colours of a result, as a palette. *)
Definition palette_of (r : ResolvedColor) : Palette :=
  mkPalette (r_primary r) (r_secondary r) (r_accent r) (r_light r)
            (r_gradient r).

(** The words the resolver reads as a semantic hint. *)
Definition semantic_keywords : list string :=
  ["temperature"; "sales"; "progress"; "comparison"; "dual_axes"].

Definition is_keyword (x : option string) : bool :=
  match x with
  | None => false
  | Some s => bool_decide (s ∈ semantic_keywords)
  end.

(** The chart-type default table as the specification lists it, row by
    row, to be compared with [palette_mapping_get]. *)
Definition default_palette_for (chart_type : option string) : string :=
  match chart_type with
  | None => "ocean"
  | Some c =>
      if String.eqb c "line" then "ocean"
      else if String.eqb c "column" then "ocean"
      else if String.eqb c "bar" then "ocean"
      else if String.eqb c "area" then "sunset"
      else if String.eqb c "pie" then "coral"
      else if String.eqb c "scatter" then "violet"
      else if String.eqb c "radar" then "forest"
      else if String.eqb c "histogram" then "ocean"
      else if String.eqb c "treemap" then "sunset"
      else if String.eqb c "dual_axes" then "violet"
      else "ocean"
  end.

(* ===================================================================== *)
(** ** Colour choices of the chart tools *)
(* ===================================================================== *)

(** The two class attributes [ColorTheme.GRADIENT_BLUE] and
    [ColorTheme.GRADIENT_SUNSET]. *)
Definition GRADIENT_BLUE : list string :=
  ["#49bccf"; "#5cd4e5"; "#7dd3fc"; "#a78bfa"].

Definition GRADIENT_SUNSET : list string :=
  ["#ff6b6b"; "#ff8e53"; "#ffd93d"; "#ffed4e"].

(** [x is None] *)
Definition is_None_str (x : option string) : bool :=
  match x with None => true | Some _ => false end.

Section Qualitative.

(** The colour lists of [px.colors.qualitative], which belong to plotly. *)
Variables Set3 Pastel Vivid Bold Plotly Alphabet : list string.

(** [ColorTheme.QUALITATIVE_SETS] *)
Definition QUALITATIVE_SETS : gmap string (list string) :=
  list_to_map
    [ ("elegant", Set3); ("pastel", Pastel); ("vivid", Vivid);
      ("bold", Bold); ("plotly", Plotly); ("safari", Pastel);
      ("alphabet", Alphabet) ].

(** Lines 1172-1178 of [generate_pie_chart]: the colour sequence and the
    local variable [palette_name]. *)
Definition pie_colors (color_scheme palette data_context : option string)
    : list string * option string :=
  if is_None_str color_scheme && is_None_str palette then
    let color_info := get_elegant_color (Some "pie") palette data_context in
    (r_gradient color_info, r_palette_name color_info)
  else
    (match color_scheme with
     | Some cs => dict_get QUALITATIVE_SETS cs (QUALITATIVE_SETS !!! "elegant")
     | None => QUALITATIVE_SETS !!! "elegant"
     end,
     if truthy color_scheme then color_scheme else Some "elegant").

End Qualitative.

(** Lines 586-591 of [generate_dual_axes_chart]: the colours of the two
    axes. *)
Definition dual_axes_colors (color1 color2 palette data_context : option string)
    : string * string :=
  match color1, color2 with
  | Some c1, Some c2 => (c1, c2)
  | _, _ =>
      let color_info :=
        get_elegant_color (Some "dual_axes") palette data_context in
      (match color1 with None => r_primary color_info | Some c => c end,
       match color2 with None => r_secondary color_info | Some c => c end)
  end.

(** Lines 413-415 and their copies in the bar, column, histogram, line
    and scatter tools: the single colour of the chart. *)
Definition chart_color (chart_type : string)
    (color palette data_context : option string) : string :=
  match color with
  | None => r_primary (get_elegant_color (Some chart_type) palette data_context)
  | Some c => c
  end.

(** One trace of the radar chart, with the arguments of
    [go.Scatterpolar] that vary: [r], [theta], [name] and the colour used
    for the line and the fill. *)
Record radar_trace (S : Type) := mkTrace {
  rt_r : S;
  rt_theta : S;
  rt_name : string;
  rt_color : string
}.
Arguments mkTrace {S} _ _ _ _.
Arguments rt_r {S} _.
Arguments rt_theta {S} _.
Arguments rt_name {S} _.
Arguments rt_color {S} _.

Section Radar.

(** What belongs to pandas and plotly: [data[name]], which raises
    [KeyError] for a name that is no column, and the construction and
    adding of a trace.  [None] stands for a raised exception. *)
Context {S : Type}.
Variable getitem : string -> option S.
Variable add_trace : radar_trace S -> option unit.

(** Lines 1258-1274 of [generate_radar_chart]: the traces added by the
    loop over [value_fields], in order; [None] stands for a raised
    exception. *)
Definition radar_traces (palette data_context : option string)
    (category_field : string) (value_fields : list string)
    : option (list (radar_trace S)) :=
  let color_info := get_elegant_color (Some "radar") palette data_context in
  let colors := r_gradient color_info in
  mapM (fun '(i, field) =>
          k ← py_mod (Z.of_nat i) (Z.of_nat (length colors));
          color ← py_index colors k;
          r ← getitem field;
          theta ← getitem category_field;
          let trace := mkTrace r theta field color in
          _ ← add_trace trace;
          Some trace)
       (imap pair value_fields).

End Radar.

(** Data with the columns name, speed and power, each column standing
    for itself. *)
Definition three_columns (name : string) : option string :=
  if bool_decide (name ∈ ["name"; "speed"; "power"]) then Some name else None.

(** One drawn bone of the fishbone diagram: the height of its label, the
    cause written there and the fill colour of the label's box. *)
Record bone (A : Type) := mkBone {
  bone_y : Z;
  bone_cause : A;
  bone_facecolor : string
}.
Arguments mkBone {A} _ _ _.
Arguments bone_y {A} _.
Arguments bone_cause {A} _.
Arguments bone_facecolor {A} _.

(** One of the two loops of [generate_fishbone_diagram] (lines 700-717 and
    720-736) over an already sliced list of causes. *)
Definition fishbone_side {A} (y_positions : list Z) (gradient : list string)
    (causes : list A) : option (list (bone A)) :=
  drawn ← mapM (fun '(i, cause) =>
                  if (i <? length y_positions)%nat then
                    y ← y_positions !! i;
                    k ← py_mod (Z.of_nat i) (Z.of_nat (length gradient));
                    color ← py_index gradient k;
                    Some (Some (mkBone y cause color))
                  else Some None)
               (imap pair causes);
  Some (omap id drawn).

(** The bones drawn for a list of causes: [causes[:3]] above the spine,
    [causes[3:6]] below it. *)
Definition fishbone_bones {A} (causes : list A) : option (list (bone A)) :=
  upper ← fishbone_side [7; 8; 9] GRADIENT_BLUE (take 3 causes);
  lower ← fishbone_side [3; 2; 1] GRADIENT_SUNSET (take 3 (drop 3 causes));
  Some (upper ++ lower)%list.

(* ===================================================================== *)
(** ** File names, image addresses and the image server *)
(* ===================================================================== *)

(** [s.replace(c, '')] for a one-character [c]. *)
Definition py_remove_char (c : ascii) (s : string) : string :=
  string_of_list_ascii (filter (fun x => x <> c) (list_ascii_of_string s)).

(** [s[:n]] for [n >= 0]. *)
Definition py_str_prefix (n : nat) (s : string) : string :=
  string_of_list_ascii (take n (list_ascii_of_string s)).

(** [s.endswith(suffix)] *)
Definition py_endswith (s suffix : string) : bool :=
  bool_decide (list_ascii_of_string suffix `suffix_of` list_ascii_of_string s).

(** [s.rfind(c)] for a one-character [c]: the last index of [c], or -1. *)
Definition py_rfind (c : ascii) (s : string) : Z :=
  match list_find (fun x => x = c) (reverse (list_ascii_of_string s)) with
  | Some (i, _) => Z.of_nat (String.length s) - 1 - Z.of_nat i
  | None => -1
  end.

(** [os.path.basename] on a POSIX path, as [posixpath] defines it:
    [i = p.rfind('/') + 1; return p[i:]]. *)
Definition basename (p : string) : string :=
  let i := py_rfind "/" p + 1 in
  string_of_list_ascii (drop (Z.to_nat i) (list_ascii_of_string p)).

(** [generate_unique_filename]; the two values read from the environment,
    [datetime.now().strftime("%Y%m%d")] and [str(uuid.uuid4())], are
    arguments. *)
Definition generate_unique_filename (timestamp uuid4 : string)
    (chart_type extension : string) : string :=
  let unique_id := py_str_prefix 9 (py_remove_char "-" uuid4) in
  chart_type ++ "_" ++ timestamp ++ "_" ++ unique_id ++ "." ++ extension.

(** The value [save_chart_as_image] returns, [str(IMAGES_DIR / filename)],
    for a one-component file name; the directory is an argument. *)
Definition image_filepath (images_dir filename : string) : string :=
  images_dir ++ "/" ++ filename.

(** [generate_image_url]; the line it logs at level INFO is left out. *)
Definition generate_image_url (filepath : string) : string :=
  let filename := basename filepath in
  "http://127.0.0.1:8081/" ++ filename.

(** What [ImageHTTPRequestHandler] does with a request, as the sequence
    of calls it makes on itself and on its base class. *)
Inductive http_event :=
| SendResponse (code : Z)
| SendHeader (name value : string)
| SuperEndHeaders
| WriteBody (body : string)
| SuperDoGET.

(** [end_headers] *)
Definition end_headers : list http_event :=
  [ SendHeader "Access-Control-Allow-Origin" "*";
    SendHeader "Access-Control-Allow-Methods" "GET, OPTIONS";
    SendHeader "Access-Control-Allow-Headers" "Content-Type";
    SuperEndHeaders ].

(** [do_GET] for the request path [self.path]. *)
Definition do_GET (path : string) : list http_event :=
  if negb (py_endswith path ".png") then
    ([ SendResponse 404;
       SendHeader "Content-type" "text/html; charset=utf-8" ]
     ++ end_headers
     ++ [ WriteBody "<h1>404 Not Found</h1><p>请访问具体资源文件路径</p>" ])%list
  else [SuperDoGET].

(* ===================================================================== *)
(** ** Properties *)
(* ===================================================================== *)

Example ex_colors8 : get_palette_colors "ocean" 8 =
  Some ["#0066CC"; "#4A90E2"; "#7BB3FF"; "#A8CCFF"; "#D4E6FF";
        "#0066CC"; "#4A90E2"; "#7BB3FF"].
Proof. vm_compute. reflexivity. Qed.

Example ex_colors_neg : get_palette_colors "ocean" (-1) =
  Some ["#0066CC"; "#4A90E2"; "#7BB3FF"; "#A8CCFF"].
Proof. vm_compute. reflexivity. Qed.

(** *** The registry *)

Lemma registry_ocean : ELEGANT_PALETTES !!! "ocean" = ocean.
Proof. reflexivity. Qed.

Lemma registry_entries name p :
  ELEGANT_PALETTES !! name = Some p ->
  (name, p) ∈ [ ("ocean", ocean); ("sunset", sunset); ("forest", forest);
                ("violet", violet); ("coral", coral) ].
Proof. intros H. by apply elem_of_list_to_map_2 in H. Qed.

Lemma registry_lookup_known name p :
  ELEGANT_PALETTES !! name = Some p -> registry_lookup (Some name) = p.
Proof. intros H. unfold registry_lookup, dict_get. by rewrite H. Qed.

Lemma registry_lookup_unknown name :
  ELEGANT_PALETTES !! name = None -> registry_lookup (Some name) = ocean.
Proof. intros H. unfold registry_lookup, dict_get. by rewrite H. Qed.

Lemma registry_lookup_entry name :
  exists k, ELEGANT_PALETTES !! k = Some (registry_lookup (Some name))
            /\ (ELEGANT_PALETTES !! name = None -> k = "ocean")
            /\ (is_Some (ELEGANT_PALETTES !! name) -> k = name).
Proof.
  destruct (ELEGANT_PALETTES !! name) as [p|] eqn:E.
  - exists name. rewrite (registry_lookup_known _ _ E). by repeat split.
  - exists "ocean". rewrite (registry_lookup_unknown _ E).
    split; [reflexivity|]. split; [done|]. by intros [? ?].
Qed.

Lemma registry_gradient_length name :
  length (gradient (registry_lookup (Some name))) = 5%nat.
Proof.
  destruct (ELEGANT_PALETTES !! name) as [p|] eqn:E.
  - rewrite (registry_lookup_known _ _ E).
    apply registry_entries in E.
    repeat (apply elem_of_cons in E as [E|E]; [by inversion E|]).
    by apply elem_of_nil in E.
  - by rewrite (registry_lookup_unknown _ E).
Qed.

Lemma palette_of_get_elegant_color ct pn dc :
  palette_of (get_elegant_color ct pn dc) =
  registry_lookup (select_palette_name ct pn dc).
Proof.
  unfold palette_of, get_elegant_color. simpl.
  by destruct (registry_lookup _).
Qed.

Lemma truthy_Some name : name <> EmptyString -> truthy (Some name) = true.
Proof.
  intros H. simpl. destruct (String.eqb_spec name EmptyString); [done | reflexivity].
Qed.

(** *** An explicit palette name *)

(** C1, as stated, fails at the empty name: with [chart_type = "pie"] and
    the empty string as [palette_name] the resolver does not return the
    registry lookup of the empty name (which is ocean) but the coral
    palette. *)
Lemma explicit_empty_name_not_looked_up :
  palette_of (get_elegant_color (Some "pie") (Some EmptyString) None)
  <> registry_lookup (Some EmptyString).
Proof. vm_compute. discriminate. Qed.

(** C1 (amended): for every chart type and data context, a non-empty
    explicit palette name resolves to exactly the registry lookup of that
    name (the ocean entry when the name is unknown), and the result
    carries the given name. *)
Theorem explicit_palette_is_registry_lookup ct dc name :
  name <> EmptyString ->
  palette_of (get_elegant_color ct (Some name) dc) = registry_lookup (Some name)
  /\ r_palette_name (get_elegant_color ct (Some name) dc) = Some name
  /\ (ELEGANT_PALETTES !! name = None ->
      palette_of (get_elegant_color ct (Some name) dc) = ocean).
Proof.
  intros Hne.
  assert (Hsel : select_palette_name ct (Some name) dc = Some name).
  { unfold select_palette_name. by rewrite (truthy_Some _ Hne). }
  rewrite palette_of_get_elegant_color, Hsel.
  split; [reflexivity|]. split; [exact Hsel|].
  apply registry_lookup_unknown.
Qed.

Lemma explicit_palette_is_registry_lookup_witness :
  palette_of (get_elegant_color (Some "pie") (Some "neon") (Some "sales"))
  = registry_lookup (Some "neon")
  /\ r_palette_name (get_elegant_color (Some "pie") (Some "neon") (Some "sales"))
     = Some "neon"
  /\ (ELEGANT_PALETTES !! "neon" = None ->
      palette_of (get_elegant_color (Some "pie") (Some "neon") (Some "sales"))
      = ocean).
Proof.
  apply (explicit_palette_is_registry_lookup (Some "pie") (Some "sales") "neon").
  discriminate.
Defined.

(** *** The name carried by the result *)

Lemma palette_mapping_values c v :
  palette_mapping !! c = Some v -> is_Some (ELEGANT_PALETTES !! v).
Proof.
  intros H. apply elem_of_list_to_map_2 in H.
  repeat (apply elem_of_cons in H as [H|H]; [by inversion H|]).
  by apply elem_of_nil in H.
Qed.

Lemma palette_mapping_get_registered ct :
  is_Some (ELEGANT_PALETTES !! palette_mapping_get ct).
Proof.
  destruct ct as [c|]; simpl; [|done].
  unfold dict_get. destruct (palette_mapping !! c) as [v|] eqn:E; simpl.
  - by apply palette_mapping_values in E.
  - done.
Qed.

Lemma select_unset_registered ct pn dc :
  truthy pn = false ->
  exists k, select_palette_name ct pn dc = Some k
            /\ is_Some (ELEGANT_PALETTES !! k).
Proof.
  intros Hf. unfold select_palette_name. rewrite Hf. simpl.
  repeat match goal with
         | |- context [if ?b then _ else _] => destruct b
         end; eexists; (split; [reflexivity|]);
    try done; apply palette_mapping_get_registered.
Qed.

(** C2, as stated, fails: an unknown explicit name is handed back
    unchanged in [palette_name], so the field names no registry entry and
    is not "ocean". *)
Lemma unknown_name_is_echoed :
  r_palette_name (get_elegant_color None (Some "neon") None) = Some "neon"
  /\ ELEGANT_PALETTES !! "neon" = None
  /\ r_palette_name (get_elegant_color None (Some "neon") None) <> Some "ocean".
Proof. vm_compute. repeat split; discriminate. Qed.

(** C2 (amended): for every input the colours of the result are those of
    a registry entry [k].  The [palette_name] field is [k] itself, except
    when the caller gave a non-empty name that is no registry key: then
    the colours are those of "ocean" and the field still carries the
    given name. *)
Theorem result_colours_from_registry ct pn dc :
  let r := get_elegant_color ct pn dc in
  exists k,
    ELEGANT_PALETTES !! k = Some (palette_of r)
    /\ (r_palette_name r = Some k
        \/ (k = "ocean" /\ truthy pn = true /\ r_palette_name r = pn
            /\ exists name, pn = Some name /\ ELEGANT_PALETTES !! name = None)).
Proof.
  intros r. subst r. rewrite palette_of_get_elegant_color.
  destruct (truthy pn) eqn:Ht.
  - destruct pn as [name|]; [|discriminate].
    assert (Hsel : select_palette_name ct (Some name) dc = Some name).
    { unfold select_palette_name. by rewrite Ht. }
    unfold get_elegant_color; simpl. rewrite Hsel.
    destruct (ELEGANT_PALETTES !! name) as [p|] eqn:E.
    + exists name. rewrite (registry_lookup_known _ _ E). by split; [|left].
    + exists "ocean". rewrite (registry_lookup_unknown _ E).
      split; [reflexivity|]. right. repeat split; eauto.
  - destruct (select_unset_registered ct pn dc Ht) as (k & Hsel & [p Hp]).
    exists k. unfold get_elegant_color; simpl. rewrite Hsel.
    rewrite (registry_lookup_known _ _ Hp). by split; [|left].
Qed.

(** *** Semantic keywords *)

(** What the keyword tests of lines 131-138 do select, with no palette
    name given. *)
Lemma keyword_selection ct pn dc :
  truthy pn = false ->
  (eq_str ct "temperature" || eq_str dc "temperature" = true ->
   select_palette_name ct pn dc = Some "sunset")
  /\ (is_keyword ct = false -> eq_str dc "temperature" = false ->
      eq_str dc "sales" = true ->
      select_palette_name ct pn dc = Some "ocean")
  /\ (is_keyword ct = false -> eq_str dc "temperature" = false ->
      eq_str dc "sales" = false -> eq_str dc "progress" = true ->
      select_palette_name ct pn dc = Some "forest")
  /\ (is_keyword dc = false ->
      eq_str ct "comparison" || eq_str ct "dual_axes" = true ->
      select_palette_name ct pn dc = Some "violet").
Proof.
  intros Hf. unfold select_palette_name. rewrite Hf. cbn [negb].
  repeat split.
  - by intros ->.
  - intros Hk Ht Hs. rewrite Ht, Hs.
    destruct ct as [c|]; simpl in *; [|reflexivity].
    destruct (String.eqb_spec c "temperature"); [by subst|].
    simpl. by rewrite orb_true_r.
  - intros Hk Ht Hs Hp. rewrite Ht, Hs, Hp.
    destruct ct as [c|]; simpl in *; [|reflexivity].
    destruct (String.eqb_spec c "temperature"); [by subst|].
    destruct (String.eqb_spec c "sales"); [by subst|].
    simpl. by rewrite orb_true_r.
  - intros Hk Hv.
    destruct dc as [d|]; simpl in *.
    + destruct (String.eqb_spec d "temperature"); [by subst|].
      destruct (String.eqb_spec d "sales"); [by subst|].
      destruct (String.eqb_spec d "progress"); [by subst|].
      rewrite !orb_false_r.
      destruct ct as [c|]; simpl in *; [|discriminate].
      destruct (String.eqb_spec c "temperature"); [by subst|].
      destruct (String.eqb_spec c "sales"); [by subst|].
      destruct (String.eqb_spec c "progress"); [by subst|].
      by rewrite Hv.
    + rewrite !orb_false_r.
      destruct ct as [c|]; simpl in *; [|discriminate].
      destruct (String.eqb_spec c "temperature"); [by subst|].
      destruct (String.eqb_spec c "sales"); [by subst|].
      destruct (String.eqb_spec c "progress"); [by subst|].
      by rewrite Hv.
Qed.

(** C3 at the failing input: with [data_context = "comparison"] and
    [chart_type = "pie"] the resolver selects coral, not violet; line 137
    tests [chart_type] twice and never [data_context]. *)
Theorem comparison_context_not_violet :
  r_palette_name (get_elegant_color (Some "pie") None (Some "comparison"))
  = Some "coral"
  /\ palette_of (get_elegant_color (Some "pie") None (Some "comparison"))
     = coral
  /\ r_palette_name (get_elegant_color (Some "pie") None (Some "dual_axes"))
     = Some "coral".
Proof. vm_compute. by repeat split. Qed.

(** *** The chart-type default table *)

Lemma palette_mapping_get_table ct :
  palette_mapping_get ct = default_palette_for ct.
Proof.
  destruct ct as [c|]; [|reflexivity].
  unfold palette_mapping_get, default_palette_for, dict_get, palette_mapping.
  cbn [list_to_map foldr uncurry fst snd].
  repeat (rewrite lookup_insert;
          match goal with
          | |- context [decide (?k = c)] =>
              destruct (String.eqb_spec c k) as [->|?];
              [reflexivity | rewrite decide_False by congruence]
          end).
  by rewrite lookup_empty.
Qed.

Lemma not_keyword_eq_str x k :
  is_keyword x = false -> k ∈ semantic_keywords -> eq_str x k = false.
Proof.
  intros Hk Hin. destruct x as [s|]; [|reflexivity]. simpl in *.
  destruct (String.eqb_spec s k) as [->|]; [|reflexivity].
  apply bool_decide_eq_false in Hk. done.
Qed.

(** C9: with no palette name given (absent or empty) and neither hint a
    semantic keyword, the result is the registry entry named by the
    chart-type default table: line, column, bar and histogram give ocean,
    area and treemap sunset, pie coral, scatter violet, radar forest,
    dual_axes violet, and any other chart type, [None] included, ocean. *)
Theorem default_table_selection ct pn dc :
  truthy pn = false ->
  is_keyword ct = false ->
  is_keyword dc = false ->
  r_palette_name (get_elegant_color ct pn dc) = Some (default_palette_for ct)
  /\ palette_of (get_elegant_color ct pn dc)
     = registry_lookup (Some (default_palette_for ct))
  /\ (ct = None \/ (exists c, ct = Some c /\ palette_mapping !! c = None) ->
      r_palette_name (get_elegant_color ct pn dc) = Some "ocean"
      /\ palette_of (get_elegant_color ct pn dc) = ocean)
  /\ Forall (fun row => palette_mapping !! row.1 = Some row.2)
       [ ("line", "ocean"); ("column", "ocean"); ("bar", "ocean");
         ("histogram", "ocean"); ("area", "sunset"); ("treemap", "sunset");
         ("pie", "coral"); ("scatter", "violet"); ("radar", "forest");
         ("dual_axes", "violet") ].
Proof.
  intros Hf Hct Hdc.
  assert (Hsel : select_palette_name ct pn dc = Some (default_palette_for ct)).
  { unfold select_palette_name. rewrite Hf. cbn [negb].
    rewrite !(not_keyword_eq_str ct), !(not_keyword_eq_str dc)
      by (done || (unfold semantic_keywords; set_solver)).
    simpl. by rewrite palette_mapping_get_table. }
  rewrite palette_of_get_elegant_color.
  unfold get_elegant_color; simpl. rewrite Hsel.
  split; [reflexivity|]. split; [reflexivity|]. split.
  - intros Hout.
    assert (Ho : default_palette_for ct = "ocean").
    { destruct Hout as [->|(c & -> & Hc)]; [reflexivity|].
      rewrite <- palette_mapping_get_table. simpl. unfold dict_get.
      by rewrite Hc. }
    by rewrite Ho.
  - repeat constructor.
Qed.

Lemma default_table_selection_witness :
  r_palette_name (get_elegant_color (Some "pie") None (Some "weather"))
  = Some "coral"
  /\ palette_of (get_elegant_color (Some "pie") None (Some "weather")) = coral.
Proof.
  destruct (default_table_selection (Some "pie") None (Some "weather"))
    as (Hname & Hcolours & _); [reflexivity | reflexivity | reflexivity |].
  split; [exact Hname | exact Hcolours].
Defined.

(** *** The empty palette name *)

(** C10: the empty string as [palette_name] gives the same result as no
    [palette_name] at all, whatever the other two arguments; with
    [chart_type = "pie"] that result is the coral palette, not the ocean
    one a registry lookup of the empty name would give. *)
Theorem empty_name_is_absent :
  (forall ct dc,
      get_elegant_color ct (Some EmptyString) dc = get_elegant_color ct None dc)
  /\ palette_of (get_elegant_color (Some "pie") (Some EmptyString) None) = coral
  /\ r_palette_name (get_elegant_color (Some "pie") (Some EmptyString) None)
     = Some "coral"
  /\ registry_lookup (Some EmptyString) = ocean.
Proof. repeat split. Qed.

(** *** Colours of a palette *)

Lemma py_range_lookup (n : Z) (i : nat) :
  (i < Z.to_nat n)%nat -> py_range n !! i = Some (Z.of_nat i).
Proof.
  intros Hi. unfold py_range.
  rewrite list_lookup_fmap, lookup_seq_lt by done. reflexivity.
Qed.

Lemma py_range_length (n : Z) : length (py_range n) = Z.to_nat n.
Proof. unfold py_range. by rewrite length_fmap, length_seq. Qed.

(** The loop of lines 183-186 on a non-empty list. *)
Lemma cyclic_extension (colors : list string) (count : Z) :
  (0 < length colors)%nat ->
  exists l,
    mapM (fun i => k ← py_mod i (Z.of_nat (length colors)); py_index colors k)
         (py_range count) = Some l
    /\ length l = Z.to_nat count
    /\ forall i : nat, (i < Z.to_nat count)%nat ->
         l !! i = colors !! (i mod length colors)%nat.
Proof.
  intros Hpos.
  set (f := fun i : Z =>
              k ← py_mod i (Z.of_nat (length colors)); py_index colors k).
  assert (Hf : forall i : nat,
             f (Z.of_nat i) = colors !! (i mod length colors)%nat).
  { intros i. unfold f, py_mod.
    destruct (Z.eqb_spec (Z.of_nat (length colors)) 0) as [E|_]; [lia|].
    simpl. unfold py_index.
    rewrite <- Nat2Z.inj_mod.
    destruct (Z.leb_spec 0 (Z.of_nat (i mod length colors))) as [_|?]; [|lia].
    by rewrite Nat2Z.id. }
  assert (Hall : forall i : nat, is_Some (f (Z.of_nat i))).
  { intros i. rewrite Hf. apply lookup_lt_is_Some.
    apply Nat.mod_upper_bound. lia. }
  destruct (mapM f (py_range count)) as [l|] eqn:E.
  - exists l. split; [reflexivity|].
    apply mapM_Some in E.
    split.
    + rewrite <- (Forall2_length _ _ _ E). apply py_range_length.
    + intros i Hi.
      destruct (Forall2_lookup_l _ _ _ i _ E (py_range_lookup _ _ Hi))
        as (y & Hy & Hfy).
      by rewrite Hy, <- Hfy, Hf.
  - apply mapM_None in E. apply Exists_exists in E as (x & Hx & Hnone).
    apply list_elem_of_fmap in Hx as (i & -> & _).
    destruct (Hall i) as [y Hy]. congruence.
Qed.

(** C5: for every palette name, known or not, and every non-negative
    count, [get_palette_colors] returns a list of exactly [count] colours
    whose element [i] is the gradient's element [i mod len(gradient)] of
    the palette the name resolves to; for ocean, 8 colours are the five
    gradient entries followed by the first three, and 3 colours are the
    first three entries. *)
Theorem palette_colors_cyclic (palette_name : string) (count : Z) :
  0 <= count ->
  (exists l,
      get_palette_colors palette_name count = Some l
      /\ length l = Z.to_nat count
      /\ forall i : nat, (i < Z.to_nat count)%nat ->
           l !! i = gradient (registry_lookup (Some palette_name))
                      !! (i mod length (gradient (registry_lookup
                                                    (Some palette_name))))%nat)
  /\ get_palette_colors "ocean" 8 =
     Some ["#0066CC"; "#4A90E2"; "#7BB3FF"; "#A8CCFF"; "#D4E6FF";
           "#0066CC"; "#4A90E2"; "#7BB3FF"]
  /\ get_palette_colors "ocean" 3 = Some ["#0066CC"; "#4A90E2"; "#7BB3FF"]
  /\ (ELEGANT_PALETTES !! palette_name = None ->
      get_palette_colors palette_name count = get_palette_colors "ocean" count).
Proof.
  intros Hcount. split; [|split; [reflexivity | split; [reflexivity|]]].
  - unfold get_palette_colors.
    pose proof (registry_gradient_length palette_name) as Hlen.
    set (colors := gradient (registry_lookup (Some palette_name))) in *.
    destruct (Z.ltb_spec (Z.of_nat (length colors)) count) as [Hgt|Hle].
    + apply cyclic_extension. lia.
    + exists (py_slice_to colors count). split; [reflexivity|].
      unfold py_slice_to.
      destruct (Z.leb_spec 0 count) as [_|?]; [|lia].
      split.
      * rewrite length_take. lia.
      * intros i Hi. rewrite lookup_take_lt by done.
        rewrite Nat.mod_small by lia. reflexivity.
  - intros Hunknown. unfold get_palette_colors.
    by rewrite (registry_lookup_unknown _ Hunknown).
Qed.

Lemma palette_colors_cyclic_witness :
  exists l,
    get_palette_colors "neon" 7 = Some l
    /\ length l = 7%nat
    /\ forall i : nat, (i < 7)%nat ->
         l !! i = gradient (registry_lookup (Some "neon"))
                    !! (i mod length (gradient (registry_lookup
                                                  (Some "neon"))))%nat.
Proof.
  destruct (palette_colors_cyclic "neon" 7) as [H _]; [lia|].
  exact H.
Defined.

(* ===================================================================== *)
(** ** The decorator *)
(* ===================================================================== *)

Section DecoratorProperties.

Variable json_loads : string -> outcome json.
Variable pd_DataFrame : list json -> outcome DataFrame.


(** *** Control flow of the steps before the call *)

Lemma quiet_ret {A} (a : A) tr : quiet (ret a tr) tr.
Proof. split; [reflexivity | discriminate]. Qed.

Lemma quiet_fail {A} msg tr : quiet (@return_ A (fail_envelope msg) tr) tr.
Proof. split; [reflexivity|]. intros v [= <-]. eauto. Qed.

Lemma quiet_lift {A} (o : outcome A) tr : quiet (lift o tr) tr.
Proof. split; [reflexivity|]. by destruct o. Qed.

Lemma quiet_bind {A B} (m : M A) (k : A -> M B) tr :
  quiet (m tr) tr -> (forall a, quiet (k a tr) tr) -> quiet (bind m k tr) tr.
Proof.
  intros [Htr Hm] Hk. unfold bind.
  destruct (m tr) as [[a|v|e] tr'] eqn:E; simpl in *; subst tr'.
  - apply Hk.
  - split; [reflexivity|]. intros v' [= <-]. by apply Hm.
  - split; [reflexivity | discriminate].
Qed.

Lemma quiet_try_json {A} (m : M A) msg tr :
  quiet (m tr) tr ->
  quiet (try_except_JSONDecodeError m
           (fun e => return_ (fail_envelope (msg ++ exn_str e))) tr) tr.
Proof.
  intros Hm. unfold try_except_JSONDecodeError.
  destruct (m tr) as [[a|v|[d|d]] tr'] eqn:E; try exact Hm.
  destruct Hm as [Htr _]. simpl in Htr. subst tr'. apply quiet_fail.
Qed.

Lemma quiet_parse_data kwargs tr : quiet (parse_data json_loads kwargs tr) tr.
Proof.
  unfold parse_data.
  destruct (kwargs !! "data") as [[[]|]|]; try apply quiet_ret.
  apply quiet_try_json, quiet_bind; [apply quiet_lift|].
  intros; apply quiet_ret.
Qed.

Lemma quiet_frame_data kwargs tr : quiet (frame_data pd_DataFrame kwargs tr) tr.
Proof.
  unfold frame_data.
  destruct (kwargs !! "data") as [[[]|]|]; try apply quiet_ret.
  apply quiet_bind; [apply quiet_lift|]. intros; apply quiet_ret.
Qed.

Lemma quiet_process_data kwargs tr : quiet (process_data json_loads pd_DataFrame kwargs tr) tr.
Proof.
  unfold process_data.
  destruct (kwargs !! "data") as [v|]; [|apply quiet_ret].
  destruct (is_none v); [apply quiet_ret|].
  apply quiet_bind; [apply quiet_parse_data|].
  intros; apply quiet_frame_data.
Qed.

Lemma quiet_process_words kwargs tr : quiet (process_words json_loads kwargs tr) tr.
Proof.
  unfold process_words.
  destruct (kwargs !! "words") as [[[]|]|]; try apply quiet_ret.
  apply quiet_try_json, quiet_bind; [apply quiet_lift|].
  intros; apply quiet_ret.
Qed.

Lemma quiet_check_required fields kwargs tr :
  quiet (check_required fields kwargs tr) tr.
Proof.
  induction fields as [|field fields IH]; simpl; [apply quiet_ret|].
  destruct (kwargs !! field) as [v|]; [|apply quiet_fail].
  destruct (is_none v); [apply quiet_fail|].
  destruct v as [j|f]; [exact IH|].
  destruct (df_empty f); [apply quiet_fail | exact IH].
Qed.

Lemma quiet_validate_required rf kwargs tr :
  quiet (validate_required rf kwargs tr) tr.
Proof.
  destruct rf as [[|field fields]|]; try apply quiet_ret.
  apply quiet_check_required.
Qed.

Lemma quiet_precheck rf kwargs tr : quiet (precheck json_loads pd_DataFrame rf kwargs tr) tr.
Proof.
  unfold precheck.
  apply quiet_bind; [apply quiet_process_data|]. intros kw1.
  apply quiet_bind; [apply quiet_process_words|]. intros kw2.
  apply quiet_bind; [apply quiet_validate_required|]. intros _.
  apply quiet_ret.
Qed.

(** [wrapper] in terms of [precheck]: an early return is handed back, a
    fault becomes the generic failure dictionary after one log line, and
    otherwise [func] is entered once, its own fault treated alike. *)
Lemma wrapper_unfold rf func args kwargs tr :
  wrapper json_loads pd_DataFrame rf func args kwargs tr =
  match precheck json_loads pd_DataFrame rf kwargs tr with
  | (Continue kw, tr') =>
      guarded (func args kw (tr' ++ [EvCall args kw])%list)
  | (ReturnEarly v, tr') => (Return v, tr')
  | (Raised e, tr') => guarded (Raise e, tr')
  end.
Proof.
  unfold wrapper, precheck, run_body, guarded,
    try_except_Exception, bind, call, return_, log_error, ret.
  destruct (process_data _ _ kwargs tr) as [[kw1|v|e] tr1]; try reflexivity.
  destruct (process_words _ kw1 tr1) as [[kw2|v|e] tr2]; try reflexivity.
  destruct (validate_required rf kw2 tr2) as [[[]|v|e] tr3]; try reflexivity.
  destruct (func args kw2 _) as [[v|e] tr4]; reflexivity.
Qed.

Lemma precheck_normalise rf kwargs tr :
  precheck json_loads pd_DataFrame rf kwargs tr =
  match normalise json_loads pd_DataFrame kwargs tr with
  | (Continue kw, tr') =>
      match validate_required rf kw tr' with
      | (Continue _, tr'') => (Continue kw, tr'')
      | (ReturnEarly v, tr'') => (ReturnEarly v, tr'')
      | (Raised e, tr'') => (Raised e, tr'')
      end
  | (ReturnEarly v, tr') => (ReturnEarly v, tr')
  | (Raised e, tr') => (Raised e, tr')
  end.
Proof.
  unfold precheck, normalise, bind, ret.
  by destruct (process_data _ _ kwargs tr) as [[kw1|v|e] tr1].
Qed.

Lemma quiet_normalise kwargs tr :
  quiet (normalise json_loads pd_DataFrame kwargs tr) tr.
Proof.
  unfold normalise. apply quiet_bind; [apply quiet_process_data|].
  intros; apply quiet_process_words.
Qed.

(** *** What the parsing steps change *)

Lemma parse_data_lookup kwargs kw tr tr' field :
  parse_data json_loads kwargs tr = (Continue kw, tr') ->
  field <> "data" \/ stable (kwargs !! field) ->
  kw !! field = kwargs !! field.
Proof.
  unfold parse_data. intros H Hf.
  destruct (kwargs !! "data") as [[j|f]|] eqn:E;
    [destruct j | |]; try (injection H as <- _; reflexivity).
  unfold try_except_JSONDecodeError, bind, lift, ret, return_ in H.
  destruct (json_loads s) as [j|[d|d]]; try discriminate.
  injection H as <- _.
  destruct Hf as [Hne|Hst]; [by rewrite lookup_insert_ne|].
  destruct (decide (field = "data")) as [->|Hne];
    [by rewrite E in Hst | by rewrite lookup_insert_ne].
Qed.

Lemma frame_data_lookup kwargs kw tr tr' field :
  frame_data pd_DataFrame kwargs tr = (Continue kw, tr') ->
  field <> "data" \/ stable (kwargs !! field) ->
  kw !! field = kwargs !! field.
Proof.
  unfold frame_data. intros H Hf.
  destruct (kwargs !! "data") as [[j|f]|] eqn:E;
    [destruct j | |]; try (injection H as <- _; reflexivity).
  unfold bind, lift, ret in H.
  destruct (pd_DataFrame l) as [f|e]; try discriminate.
  injection H as <- _.
  destruct Hf as [Hne|Hst]; [by rewrite lookup_insert_ne|].
  destruct (decide (field = "data")) as [->|Hne];
    [by rewrite E in Hst | by rewrite lookup_insert_ne].
Qed.

Lemma process_data_lookup kwargs kw tr tr' field :
  process_data json_loads pd_DataFrame kwargs tr = (Continue kw, tr') ->
  stable (kwargs !! field) ->
  kw !! field = kwargs !! field.
Proof.
  unfold process_data. intros H Hst.
  destruct (kwargs !! "data") as [v|] eqn:E;
    [|by injection H as <- _].
  destruct (is_none v); [by injection H as <- _|].
  unfold bind in H.
  destruct (parse_data json_loads kwargs tr) as [[kw1|?|?] tr1] eqn:E1;
    try discriminate.
  rewrite (frame_data_lookup _ _ _ _ field H).
  - apply (parse_data_lookup _ _ _ _ field E1). by right.
  - right. rewrite (parse_data_lookup _ _ _ _ field E1); [done | by right].
Qed.

Lemma process_words_lookup kwargs kw tr tr' field :
  process_words json_loads kwargs tr = (Continue kw, tr') ->
  field <> "words" \/ stable (kwargs !! field) ->
  kw !! field = kwargs !! field.
Proof.
  unfold process_words. intros H Hf.
  destruct (kwargs !! "words") as [[j|f]|] eqn:E;
    [destruct j | |]; try (injection H as <- _; reflexivity).
  unfold try_except_JSONDecodeError, bind, lift, ret, return_ in H.
  destruct (json_loads s) as [j|[d|d]]; try discriminate.
  injection H as <- _.
  destruct Hf as [Hne|Hst]; [by rewrite lookup_insert_ne|].
  destruct (decide (field = "words")) as [->|Hne];
    [by rewrite E in Hst | by rewrite lookup_insert_ne].
Qed.

Lemma normalise_lookup kwargs kw tr tr' field :
  normalise json_loads pd_DataFrame kwargs tr = (Continue kw, tr') ->
  stable (kwargs !! field) ->
  kw !! field = kwargs !! field.
Proof.
  unfold normalise, bind. intros H Hst.
  destruct (process_data _ _ kwargs tr) as [[kw1|?|?] tr1] eqn:E1;
    try discriminate.
  pose proof (process_data_lookup _ _ _ _ field E1 Hst) as H1.
  rewrite (process_words_lookup _ _ _ _ field H); [done|].
  right. by rewrite H1.
Qed.

(** *** The loop over the required fields *)

Lemma zero_rows_empty f : df_rows f = [] -> df_empty f = true.
Proof. unfold df_empty. by intros ->. Qed.

Lemma check_required_passes fields kwargs tr :
  Forall (passes kwargs) fields ->
  check_required fields kwargs tr = (Continue tt, tr).
Proof.
  induction 1 as [|field fields (v & Hv & Hn & Hf) _ IH]; [reflexivity|].
  simpl. rewrite Hv, Hn.
  destruct v as [j|f]; [exact IH|]. by rewrite (Hf f eq_refl).
Qed.

Lemma check_required_head field fields kwargs msg tr :
  field_fault kwargs field msg ->
  check_required (field :: fields) kwargs tr
  = (ReturnEarly (fail_envelope msg), tr).
Proof.
  intros [H|H|f H He]; simpl; rewrite H; simpl; [done | done |].
  by rewrite He.
Qed.

(** The first field at fault decides the message. *)
Lemma check_required_first pre field post kwargs msg tr :
  Forall (passes kwargs) pre ->
  field_fault kwargs field msg ->
  check_required (pre ++ field :: post) kwargs tr
  = (ReturnEarly (fail_envelope msg), tr).
Proof.
  intros Hpre Hfault.
  induction Hpre as [|f pre (v & Hv & Hn & Hf) _ IH]; simpl.
  - by apply check_required_head.
  - rewrite Hv, Hn. destruct v as [j|fr]; [exact IH|].
    by rewrite (Hf fr eq_refl).
Qed.

(** A field at fault anywhere in the list stops the loop with a failure
    dictionary. *)
Lemma check_required_member fields field kwargs msg tr :
  field ∈ fields ->
  field_fault kwargs field msg ->
  exists error,
    check_required fields kwargs tr = (ReturnEarly (fail_envelope error), tr).
Proof.
  intros Hin Hfault.
  induction fields as [|f fields IH]; [by apply elem_of_nil in Hin|].
  destruct (decide (field = f)) as [<-|Hne].
  { eexists. by apply check_required_head. }
  apply elem_of_cons in Hin as [?|Hin]; [done|].
  destruct (IH Hin) as [error IHe].
  simpl. destruct (kwargs !! f) as [v|]; [|by eexists].
  destruct (is_none v); [by eexists|].
  destruct v as [j|fr]; [by eexists|].
  destruct (df_empty fr); by eexists.
Qed.

Lemma validate_required_cons field fields kwargs tr :
  validate_required (Some (field :: fields)) kwargs tr
  = check_required (field :: fields) kwargs tr.
Proof. reflexivity. Qed.

Lemma validate_required_member rf field kwargs tr :
  field ∈ rf ->
  validate_required (Some rf) kwargs tr = check_required rf kwargs tr.
Proof. destruct rf; [by intros ?%elem_of_nil | reflexivity]. Qed.

(** *** The claims about the decorator *)


(** C6 (amended): for a declared required field that is absent from the keyword
    arguments, present but [None], or a frame with zero rows, the
    wrapped call returns a failure dictionary and the wrapped function
    is not entered (the only event that can be added is the log line of
    a fault).  When the parsing steps went through and every required
    field before it passes, the error is the message of that field:
    required, must not be [None], data must not be empty.  In
    particular [data=[]] with [data] the first required field gives the
    empty-data message, [pd.DataFrame([])] having no rows. *)
Theorem required_field_faults rf field func args kwargs tr :
  field ∈ rf ->
  (forall msg,
      field_fault kwargs field msg ->
      exists error tr',
        validate_and_parse_data json_loads pd_DataFrame (Some rf) func
          args kwargs tr = (Return (fail_envelope error), tr')
        /\ (tr' = tr \/ exists line, tr' = (tr ++ [EvLogError line])%list))
  /\ (forall pre post kw msg,
        rf = (pre ++ field :: post)%list ->
        normalise json_loads pd_DataFrame kwargs tr = (Continue kw, tr) ->
        Forall (passes kw) pre ->
        (kwargs !! field = None
         /\ msg = "参数 '" ++ field ++ "' 是必需的")
        \/ (kwargs !! field = Some (VJson JNone)
            /\ msg = "参数 '" ++ field ++ "' 不能为空")
        \/ ((exists f, kw !! field = Some (VFrame f) /\ df_rows f = [])
            /\ msg = "参数 '" ++ field ++ "' 的数据不能为空") ->
        validate_and_parse_data json_loads pd_DataFrame (Some rf) func
          args kwargs tr = (Return (fail_envelope msg), tr))
  /\ (forall post f,
        rf = "data" :: post ->
        field = "data" ->
        kwargs !! "data" = Some (VJson (JList [])) ->
        stable (kwargs !! "words") ->
        pd_DataFrame [] = Return f ->
        df_rows f = [] ->
        validate_and_parse_data json_loads pd_DataFrame (Some rf) func
          args kwargs tr
        = (Return (fail_envelope "参数 'data' 的数据不能为空"), tr)).
Proof.
  intros Hin. unfold validate_and_parse_data. split; [|split].
  - intros msg Hfault.
    assert (Hst : stable (kwargs !! field)).
    { by destruct Hfault as [H|H|f H _]; rewrite H. }
    rewrite wrapper_unfold, precheck_normalise.
    destruct (quiet_normalise kwargs tr) as [Htr Hearly].
    destruct (normalise _ _ kwargs tr) as [[kw|v|e] tr1] eqn:En;
      simpl in Htr, Hearly; subst tr1; cbv beta iota.
    + assert (Hfault' : field_fault kw field msg).
      { pose proof (normalise_lookup _ _ _ _ field En Hst) as Hl.
        destruct Hfault as [H|H|f H He]; rewrite <- Hl in H;
          econstructor; eauto. }
      rewrite (validate_required_member _ _ _ _ Hin).
      destruct (check_required_member rf field kw msg tr Hin Hfault')
        as [error ->].
      exists error, tr. by split; [|left].
    + destruct (Hearly v eq_refl) as [error ->].
      exists error, tr. by split; [|left].
    + eexists _, _. split; [reflexivity|]. right. eauto.
  - intros pre post kw msg -> Hn Hpre Hcase.
    assert (Hfault : field_fault kw field msg).
    { destruct Hcase as [[H ->]|[[H ->]|[(f & H & Hrows) ->]]].
      - apply MissingParameter.
        rewrite (normalise_lookup _ _ _ _ field Hn); by rewrite H.
      - apply EmptyParameter.
        rewrite (normalise_lookup _ _ _ _ field Hn); by rewrite H.
      - apply (EmptyDataset _ _ f H). by apply zero_rows_empty. }
    rewrite wrapper_unfold, precheck_normalise, Hn. cbv beta iota.
    rewrite (validate_required_member _ _ _ _ Hin).
    by rewrite (check_required_first pre field post kw msg tr Hpre Hfault).
  - intros post f -> -> Hdata Hwords Hframe Hrows.
    rewrite wrapper_unfold, precheck_normalise.
    assert (Hd : process_data json_loads pd_DataFrame kwargs tr
                 = (Continue (<["data" := VFrame f]> kwargs), tr)).
    { unfold process_data. rewrite Hdata. simpl.
      unfold bind, parse_data. rewrite Hdata. simpl.
      unfold frame_data. rewrite Hdata. unfold bind, lift.
      by rewrite Hframe. }
    unfold normalise, bind. rewrite Hd.
    destruct (quiet_process_words (<["data" := VFrame f]> kwargs) tr)
      as [Htr Hearly].
    destruct (process_words _ _ tr) as [[kw|v|e] tr1] eqn:Ew;
      simpl in Htr, Hearly; subst tr1; cbv beta iota.
    + assert (Hfault : field_fault kw "data"
                         ("参数 '" ++ "data" ++ "' 的数据不能为空")).
      { apply (EmptyDataset _ _ f); [|by apply zero_rows_empty].
        rewrite (process_words_lookup _ _ _ _ "data" Ew); [|by left].
        by rewrite lookup_insert_eq. }
      rewrite validate_required_cons.
      by rewrite (check_required_head "data" post kw _ tr Hfault).
    + exfalso. unfold process_words in Ew.
      rewrite lookup_insert_ne in Ew by done.
      destruct (kwargs !! "words") as [[[]|]|]; done.
    + exfalso. unfold process_words in Ew.
      rewrite lookup_insert_ne in Ew by done.
      destruct (kwargs !! "words") as [[[]|]|]; done.
Qed.


End DecoratorProperties.

(* ===================================================================== *)
(** ** The decorator on concrete calls *)
(* ===================================================================== *)

Lemma standin_loads_ab :
  Standin.json_loads (dq "[{'a':1,'b':2}]") = Return (JList [record_ab]).
Proof. vm_compute. reflexivity. Qed.

Lemma standin_frame_ab : Standin.DataFrame_of [record_ab] = Return frame_ab.
Proof. vm_compute. reflexivity. Qed.




Lemma required_field_faults_witness :
  validate_and_parse_data Standin.json_loads Standin.DataFrame_of
    (Some ["data"; "x_field"; "y_field"]) spy [] call_without_x []
  = (Return (fail_envelope "参数 'x_field' 是必需的"), []).
Proof.
  destruct (required_field_faults Standin.json_loads Standin.DataFrame_of
              ["data"; "x_field"; "y_field"] "x_field" spy []
              call_without_x [])
    as (_ & Hfirst & _).
  - set_solver.
  - apply (Hfirst ["data"] ["y_field"]
             (<["data" := VFrame (mkFrame [JStr "a"] [[JInt 1]])]>
                call_without_x)).
    + reflexivity.
    + vm_compute. reflexivity.
    + constructor; [|constructor].
      eexists. rewrite lookup_insert_eq.
      split; [reflexivity|]. split; [reflexivity|]. by intros f [= <-].
    + left. split; reflexivity.
Defined.

(** [data=[]] for a tool that requires [data]. *)
Example empty_list_is_empty_dataset :
  validate_and_parse_data Standin.json_loads Standin.DataFrame_of
    (Some ["data"; "x_field"; "y_field"]) spy []
    {[ "data" := VJson (JList []) ]} []
  = (Return (fail_envelope "参数 'data' 的数据不能为空"), []).
Proof. vm_compute. reflexivity. Qed.

(** A fault in the wrapped function is logged and reported. *)
Example handler_fault_is_reported :
  validate_and_parse_data Standin.json_loads Standin.DataFrame_of
    (Some ["data"]) (faulty "boom") [] call_ab []
  = (Return (fail_envelope "数据处理异常: boom"),
     [EvCall [] (<["data" := VFrame frame_ab]> call_ab);
      EvLogError "数据处理错误: boom"]).
Proof. vm_compute. reflexivity. Qed.

(* ===================================================================== *)
(** ** Further properties of the colour resolver *)
(* ===================================================================== *)

Lemma registry_lookup_cases (name : option string) :
  registry_lookup name ∈ [ocean; sunset; forest; violet; coral].
Proof.
  destruct name as [n|]; [|by left].
  destruct (ELEGANT_PALETTES !! n) as [p|] eqn:E.
  - rewrite (registry_lookup_known _ _ E). apply registry_entries in E.
    repeat (apply elem_of_cons in E as [E|E];
            [injection E as _ ->; set_solver|]).
    by apply elem_of_nil in E.
  - rewrite (registry_lookup_unknown _ E). by left.
Qed.

Lemma select_palette_name_is_Some ct pn dc :
  exists p, select_palette_name ct pn dc = Some p.
Proof.
  unfold select_palette_name. destruct (truthy pn) eqn:Ht; simpl.
  - destruct pn; [eauto | discriminate].
  - repeat match goal with
           | |- context [if ?b then _ else _] => destruct b
           end; eauto.
Qed.

(** A data context other than temperature, sales and progress has no
    effect at all: the result is the one obtained with no data context,
    whatever the chart type and the palette name. *)
Theorem data_context_without_effect ct pn dc :
  dc ∉ ["temperature"; "sales"; "progress"] ->
  get_elegant_color ct pn (Some dc) = get_elegant_color ct pn None.
Proof.
  intros Hdc.
  assert (Hk : forall k, k ∈ ["temperature"; "sales"; "progress"] ->
                         eq_str (Some dc) k = false).
  { intros k Hin. simpl. destruct (String.eqb_spec dc k); [by subst | done]. }
  unfold get_elegant_color, select_palette_name.
  rewrite !Hk by set_solver. reflexivity.
Qed.

Lemma data_context_without_effect_witness :
  get_elegant_color (Some "pie") None (Some "comparison")
  = get_elegant_color (Some "pie") None None.
Proof.
  apply (data_context_without_effect (Some "pie") None "comparison").
  rewrite !not_elem_of_cons. repeat split; try discriminate.
  apply not_elem_of_nil.
Defined.

(** Every result carries a gradient of five colours that starts with the
    result's primary and secondary colours, and these two differ. *)
Theorem result_gradient_shape ct pn dc :
  let r := get_elegant_color ct pn dc in
  length (r_gradient r) = 5%nat
  /\ r_gradient r !! 0%nat = Some (r_primary r)
  /\ r_gradient r !! 1%nat = Some (r_secondary r)
  /\ r_primary r <> r_secondary r.
Proof.
  simpl.
  pose proof (registry_lookup_cases (select_palette_name ct pn dc)) as Hin.
  repeat (apply elem_of_cons in Hin as [->|Hin]; [by repeat split|]).
  by apply elem_of_nil in Hin.
Qed.

(** [get_palette_colors] for a count that is not negative. *)
Lemma get_palette_colors_nonneg name count :
  0 <= count ->
  exists l,
    get_palette_colors name count = Some l
    /\ length l = Z.to_nat count
    /\ forall i : nat, (i < Z.to_nat count)%nat ->
         l !! i = gradient (registry_lookup (Some name)) !! (i mod 5)%nat.
Proof.
  intros Hcount. unfold get_palette_colors.
  pose proof (registry_gradient_length name) as Hlen.
  set (colors := gradient (registry_lookup (Some name))) in *.
  destruct (Z.ltb_spec (Z.of_nat (length colors)) count) as [Hgt|Hle].
  - destruct (cyclic_extension colors count) as (l & Hl & Hn & Hi); [lia|].
    exists l. rewrite Hlen in Hi. by repeat split.
  - exists (py_slice_to colors count). split; [reflexivity|].
    unfold py_slice_to. destruct (Z.leb_spec 0 count) as [_|?]; [|lia].
    split; [rewrite length_take; lia|].
    intros i Hi. rewrite lookup_take_lt by done.
    by rewrite Nat.mod_small by lia.
Qed.

(** [get_palette_colors] never raises, and a negative count is read as a
    slice bound: it drops that many colours from the end of the gradient,
    so that a count of -5 or less gives the empty list. *)
Theorem palette_colors_negative_count name count :
  count < 0 ->
  get_palette_colors name count
  = Some (take (Z.to_nat (5 + count)) (gradient (registry_lookup (Some name)))).
Proof.
  intros Hneg. unfold get_palette_colors.
  pose proof (registry_gradient_length name) as Hlen.
  set (colors := gradient (registry_lookup (Some name))) in *.
  destruct (Z.ltb_spec (Z.of_nat (length colors)) count) as [?|_]; [lia|].
  unfold py_slice_to. destruct (Z.leb_spec 0 count) as [?|_]; [lia|].
  by rewrite Hlen.
Qed.

Lemma palette_colors_negative_count_witness :
  get_palette_colors "forest" (-2)
  = Some (take 3 (gradient (registry_lookup (Some "forest")))).
Proof. apply (palette_colors_negative_count "forest" (-2)). lia. Defined.

(** Asking for more colours extends the answer: the colours for a count
    are the first colours of the answer for any larger count. *)
Theorem palette_colors_prefix name m n :
  0 <= m <= n ->
  exists lm ln,
    get_palette_colors name m = Some lm
    /\ get_palette_colors name n = Some ln
    /\ lm = take (Z.to_nat m) ln.
Proof.
  intros [Hm Hmn].
  destruct (get_palette_colors_nonneg name m Hm) as (lm & Em & Hlm & Him).
  destruct (get_palette_colors_nonneg name n) as (ln & En & Hln & Hin); [lia|].
  exists lm, ln. split; [done|]. split; [done|].
  apply list_eq. intros i.
  destruct (decide (i < Z.to_nat m)%nat) as [Hi|Hi].
  - rewrite lookup_take_lt by done. rewrite Him, Hin by lia. reflexivity.
  - rewrite lookup_take_ge by lia. apply lookup_ge_None. lia.
Qed.

Lemma palette_colors_prefix_witness :
  exists lm ln,
    get_palette_colors "coral" 2 = Some lm
    /\ get_palette_colors "coral" 9 = Some ln
    /\ lm = take 2 ln.
Proof. apply (palette_colors_prefix "coral" 2 9). lia. Defined.

(** The name carried by a result can be fed back: [get_palette_colors]
    on it draws from the gradient of that same result, also when the name
    is one the registry does not know. *)
Theorem palette_name_feeds_back ct pn dc count :
  0 <= count ->
  let r := get_elegant_color ct pn dc in
  exists p l,
    r_palette_name r = Some p
    /\ get_palette_colors p count = Some l
    /\ length l = Z.to_nat count
    /\ forall i : nat, (i < Z.to_nat count)%nat ->
         l !! i = r_gradient r !! (i mod 5)%nat.
Proof.
  intros Hcount. simpl.
  destruct (select_palette_name_is_Some ct pn dc) as [p Hp].
  destruct (get_palette_colors_nonneg p count Hcount) as (l & El & Hl & Hi).
  exists p, l. rewrite Hp. by repeat split.
Qed.

Lemma palette_name_feeds_back_witness :
  exists p l,
    r_palette_name (get_elegant_color None (Some "neon") None) = Some p
    /\ get_palette_colors p 6 = Some l
    /\ length l = 6%nat
    /\ forall i : nat, (i < 6)%nat ->
         l !! i = r_gradient (get_elegant_color None (Some "neon") None)
                    !! (i mod 5)%nat.
Proof. apply (palette_name_feeds_back None (Some "neon") None 6). lia. Defined.

(* ===================================================================== *)
(** ** Colour choices of the chart tools *)
(* ===================================================================== *)

(** The pie tool never hands a palette name to the resolver: as soon as
    [palette] is given, whatever its value, the colours are the
    qualitative set named by [color_scheme], and plotly's Set3 when there
    is no colour scheme or an unknown one.  The data context is ignored
    as well in that case. *)
Theorem pie_ignores_palette_name
    (Set3 Pastel Vivid Bold Plotly Alphabet : list string)
    (color_scheme : option string) (palette : string) :
  let pie := pie_colors Set3 Pastel Vivid Bold Plotly Alphabet in
  (forall palette' dc dc',
      pie color_scheme (Some palette) dc = pie color_scheme (Some palette') dc')
  /\ (forall dc, (pie None (Some palette) dc).1 = Set3)
  /\ (forall cs dc,
        QUALITATIVE_SETS Set3 Pastel Vivid Bold Plotly Alphabet !! cs = None ->
        (pie (Some cs) (Some palette) dc).1 = Set3).
Proof.
  simpl. split; [|split].
  - intros palette' dc dc'. unfold pie_colors.
    by destruct color_scheme.
  - reflexivity.
  - intros cs dc Hcs. unfold pie_colors, dict_get. simpl.
    by rewrite Hcs.
Qed.

Lemma eq_str_first_three dc k :
  (forall d, dc = Some d -> d ∉ ["temperature"; "sales"; "progress"]) ->
  k ∈ ["temperature"; "sales"; "progress"] ->
  eq_str dc k = false.
Proof.
  intros Hdc Hk. destruct dc as [d|]; [|reflexivity]. simpl.
  destruct (String.eqb_spec d k) as [->|]; [|reflexivity].
  by destruct (Hdc k eq_refl).
Qed.

(** The two colours of the dual-axes tool.  A colour given by the caller
    is kept as it is; a colour left out is taken from the palette [q] the
    resolver gives for the chart type dual_axes: the primary colour for
    the first axis, the secondary colour for the second, also when the
    other colour was given.  [q] is a registry palette, so the two
    defaults differ; with no palette name and a data context other than
    temperature, sales and progress it is violet. *)
Theorem dual_axes_colors_chosen palette dc :
  let q := palette_of (get_elegant_color (Some "dual_axes") palette dc) in
  q ∈ [ocean; sunset; forest; violet; coral]
  /\ primary q <> secondary q
  /\ (forall c1 c2, dual_axes_colors (Some c1) (Some c2) palette dc = (c1, c2))
  /\ (forall c1, dual_axes_colors (Some c1) None palette dc
                 = (c1, secondary q))
  /\ (forall c2, dual_axes_colors None (Some c2) palette dc
                 = (primary q, c2))
  /\ dual_axes_colors None None palette dc = (primary q, secondary q)
  /\ (truthy palette = false ->
      (forall d, dc = Some d -> d ∉ ["temperature"; "sales"; "progress"]) ->
      q = violet).
Proof.
  simpl. rewrite palette_of_get_elegant_color.
  pose proof (registry_lookup_cases
                (select_palette_name (Some "dual_axes") palette dc)) as Hin.
  split; [exact Hin|]. split.
  { repeat (apply elem_of_cons in Hin as [->|Hin]; [done|]).
    by apply elem_of_nil in Hin. }
  repeat split.
  intros Hp Hdc. clear Hin. unfold select_palette_name.
  rewrite Hp, !(eq_str_first_three dc) by first [done | repeat constructor].
  reflexivity.
Qed.

(** The colour of the single-colour tools when the caller gives neither a
    colour nor a palette name, and a data context other than temperature,
    sales and progress: the primary colour of sunset for the area chart,
    of ocean for bar, column, line and histogram, of violet for scatter. *)
Theorem single_colour_defaults palette dc :
  truthy palette = false ->
  (forall d, dc = Some d -> d ∉ ["temperature"; "sales"; "progress"]) ->
  chart_color "area" None palette dc = "#FF6B6B"
  /\ Forall (fun tool => chart_color tool None palette dc = "#0066CC")
            ["bar"; "column"; "line"; "histogram"]
  /\ chart_color "scatter" None palette dc = "#5E60CE".
Proof.
  intros Hp Hdc.
  assert (Hsel : forall tool,
             tool ∉ semantic_keywords ->
             chart_color tool None palette dc
             = primary (registry_lookup
                          (Some (palette_mapping_get (Some tool))))).
  { intros tool Htool. unfold chart_color, get_elegant_color,
      select_palette_name.
    rewrite Hp, !(eq_str_first_three dc) by (done || set_solver).
    assert (Hk : forall k, k ∈ semantic_keywords ->
                           eq_str (Some tool) k = false).
    { intros k Hin. simpl.
      destruct (String.eqb_spec tool k); [by subst | done]. }
    rewrite !Hk by (unfold semantic_keywords; set_solver). reflexivity. }
  assert (Hnot : forall tool,
             bool_decide (tool ∈ semantic_keywords) = false ->
             tool ∉ semantic_keywords).
  { intros tool H. by apply bool_decide_eq_false in H. }
  split; [|split].
  - by rewrite Hsel by by apply Hnot.
  - repeat constructor; by rewrite Hsel by by apply Hnot.
  - by rewrite Hsel by by apply Hnot.
Qed.

Lemma single_colour_defaults_witness :
  chart_color "area" None (Some EmptyString) (Some "comparison") = "#FF6B6B".
Proof.
  destruct (single_colour_defaults (Some EmptyString) (Some "comparison"))
    as [H _]; [reflexivity | | exact H].
  intros d [= <-]. rewrite !not_elem_of_cons. repeat split; try discriminate.
  apply not_elem_of_nil.
Defined.

(** The colour of the trace with index [i]: [colors[i % len(colors)]]
    never fails on the gradient of a registry palette. *)
Lemma gradient_index_color name (i : nat) :
  let colors := gradient (registry_lookup (Some name)) in
  exists c,
    colors !! (i mod 5)%nat = Some c
    /\ (k ← py_mod (Z.of_nat i) (Z.of_nat (length colors)); py_index colors k)
       = Some c.
Proof.
  intros colors. pose proof (registry_gradient_length name) as Hlen.
  fold colors in Hlen.
  destruct (lookup_lt_is_Some_2 colors (i mod 5)%nat) as [c Hc].
  { rewrite Hlen. apply Nat.mod_upper_bound. lia. }
  exists c. split; [done|]. unfold py_mod. rewrite Hlen. simpl.
  unfold py_index.
  change 5 with (Z.of_nat 5). rewrite <- Nat2Z.inj_mod.
  destruct (Z.leb_spec 0 (Z.of_nat (i mod 5))) as [_|?]; [|lia].
  by rewrite Nat2Z.id, Hc.
Qed.


(** The fishbone tool draws the first six causes and nothing else: three
    above the spine at the heights 7, 8, 9 and three below it at 3, 2, 1,
    in the order given; neither loop fails, and causes after the sixth
    have no effect on what is drawn. *)
Theorem fishbone_first_six {A} (causes : list A) :
  exists bones,
    fishbone_bones causes = Some bones
    /\ bone_cause <$> bones = take 6 causes
    /\ bone_y <$> bones = take (length causes) [7; 8; 9; 3; 2; 1]
    /\ bone_facecolor <$> bones
       = take (length causes)
              ["#49bccf"; "#5cd4e5"; "#7dd3fc"; "#ff6b6b"; "#ff8e53"; "#ffd93d"]
    /\ forall more, (6 <= length causes)%nat ->
         fishbone_bones (causes ++ more) = fishbone_bones causes.
Proof.
  do 6 (destruct causes as [|? causes];
        [eexists; split; [reflexivity|];
         repeat split; try reflexivity; simpl; intros; lia|]).
  eexists. split; [reflexivity|].
  simpl. rewrite !take_nil. repeat split; reflexivity.
Qed.

(* ===================================================================== *)
(** ** Further properties of the decorator *)
(* ===================================================================== *)

Section DecoratorMore.

Variable json_loads : string -> outcome json.
Variable pd_DataFrame : list json -> outcome DataFrame.

Lemma process_data_lookup_other kwargs kw tr tr' field :
  process_data json_loads pd_DataFrame kwargs tr = (Continue kw, tr') ->
  field <> "data" ->
  kw !! field = kwargs !! field.
Proof.
  unfold process_data. intros H Hne.
  destruct (kwargs !! "data") as [v|] eqn:E; [|by injection H as <- _].
  destruct (is_none v); [by injection H as <- _|].
  unfold bind in H.
  destruct (parse_data json_loads kwargs tr) as [[kw1|?|?] tr1] eqn:E1;
    try discriminate.
  rewrite (frame_data_lookup _ _ _ _ _ field H) by by left.
  apply (parse_data_lookup _ _ _ _ _ field E1). by left.
Qed.

(** The value of [data] after the first step is never a list. *)
Lemma process_data_no_list kwargs kw tr tr' l :
  process_data json_loads pd_DataFrame kwargs tr = (Continue kw, tr') ->
  kw !! "data" <> Some (VJson (JList l)).
Proof.
  unfold process_data. intros H.
  destruct (kwargs !! "data") as [v|] eqn:E;
    [|injection H as <- _; by rewrite E].
  destruct (is_none v) eqn:En.
  { injection H as <- _. rewrite E. by destruct v as [[]|]. }
  unfold bind in H.
  destruct (parse_data json_loads kwargs tr) as [[kw1|?|?] tr1] eqn:E1;
    try discriminate.
  unfold frame_data in H.
  destruct (kw1 !! "data") as [[j|f]|] eqn:E2;
    [destruct j | |];
    try (injection H as <- _; rewrite E2; discriminate).
  unfold bind, lift, ret in H.
  destruct (pd_DataFrame l0) as [f|e]; [|discriminate].
  injection H as <- _. by rewrite lookup_insert_eq.
Qed.

Lemma process_data_keys kwargs kw tr tr' field :
  process_data json_loads pd_DataFrame kwargs tr = (Continue kw, tr') ->
  is_Some (kw !! field) <-> is_Some (kwargs !! field).
Proof.
  intros H. destruct (decide (field = "data")) as [->|Hne];
    [|by rewrite (process_data_lookup_other _ _ _ _ _ H Hne)].
  unfold process_data in H.
  destruct (kwargs !! "data") as [v|] eqn:E;
    [|injection H as <- _; by rewrite E].
  split; [eauto|]. intros _.
  destruct (is_none v); [injection H as <- _; by rewrite E|].
  unfold bind in H.
  destruct (parse_data json_loads kwargs tr) as [[kw1|?|?] tr1] eqn:E1;
    try discriminate.
  assert (H1 : is_Some (kw1 !! "data")).
  { unfold parse_data in E1. rewrite E in E1.
    destruct v as [[]|];
      try (injection E1 as <- _; rewrite E; eauto).
    unfold try_except_JSONDecodeError, bind, lift, ret, return_ in E1.
    destruct (json_loads s) as [j|[d|d]]; try discriminate.
    injection E1 as <- _. rewrite lookup_insert_eq. eauto. }
  unfold frame_data in H. destruct H1 as [v1 Hv1]. rewrite Hv1 in H.
  destruct v1 as [[]|];
    try (injection H as <- _; rewrite Hv1; eauto).
  unfold bind, lift, ret in H.
  destruct (pd_DataFrame l) as [f|e]; [|discriminate].
  injection H as <- _. rewrite lookup_insert_eq. eauto.
Qed.

Lemma process_words_keys kwargs kw tr tr' field :
  process_words json_loads kwargs tr = (Continue kw, tr') ->
  is_Some (kw !! field) <-> is_Some (kwargs !! field).
Proof.
  unfold process_words. intros H.
  destruct (kwargs !! "words") as [[j|f]|] eqn:E;
    [destruct j | |]; try (by injection H as <- _).
  unfold try_except_JSONDecodeError, bind, lift, ret, return_ in H.
  destruct (json_loads s) as [j|[d|d]]; try discriminate.
  injection H as <- _.
  destruct (decide (field = "words")) as [->|Hne].
  - rewrite lookup_insert_eq, E. split; eauto.
  - by rewrite lookup_insert_ne.
Qed.

(** The two parsing steps keep the keyword arguments: the same names are
    present afterwards, every argument other than [data] and [words] is
    unchanged, and [data] is never left as a list, so that the wrapped
    function never sees a list under [data]. *)
Theorem normalise_keeps_arguments kwargs kw tr tr' :
  normalise json_loads pd_DataFrame kwargs tr = (Continue kw, tr') ->
  dom kw = dom kwargs
  /\ (forall k, k <> "data" -> k <> "words" -> kw !! k = kwargs !! k)
  /\ (forall l, kw !! "data" <> Some (VJson (JList l)))
  /\ tr' = tr.
Proof.
  intros H.
  assert (Htr : tr' = tr).
  { destruct (quiet_normalise json_loads pd_DataFrame kwargs tr) as [Hq _].
    by rewrite H in Hq. }
  unfold normalise, bind in H.
  destruct (process_data json_loads pd_DataFrame kwargs tr)
    as [[kw1|?|?] tr1] eqn:E1; try discriminate.
  repeat split; [| | |exact Htr].
  - apply set_eq. intros k. rewrite !elem_of_dom.
    rewrite (process_words_keys _ _ _ _ k H).
    apply (process_data_keys _ _ _ _ k E1).
  - intros k Hd Hw.
    rewrite (process_words_lookup _ _ _ _ _ k H) by by left.
    by apply (process_data_lookup_other _ _ _ _ k E1).
  - intros l.
    rewrite (process_words_lookup _ _ _ _ _ "data" H) by by left.
    by apply (process_data_no_list _ _ _ _ l E1).
Qed.

(** A wrapped call has one of three shapes.  Either every step before the
    call went through and the wrapped function is entered once, with the
    normalised keyword arguments, its outcome (or the generic failure for
    its fault) being the result; or the call is answered with a failure
    dictionary and no event at all; or a fault before the call is logged
    and answered with a failure dictionary.  In the last two cases the
    wrapped function is not entered. *)
Theorem wrapped_call_shapes rf func args kwargs tr :
  let result :=
    validate_and_parse_data json_loads pd_DataFrame rf func args kwargs tr in
  (exists kw,
      normalise json_loads pd_DataFrame kwargs tr = (Continue kw, tr)
      /\ result = guarded (func args kw (tr ++ [EvCall args kw])%list))
  \/ (exists error, result = (Return (fail_envelope error), tr))
  \/ (exists error line,
        result = (Return (fail_envelope error),
                  (tr ++ [EvLogError line])%list)).
Proof.
  simpl. unfold validate_and_parse_data.
  rewrite wrapper_unfold, precheck_normalise.
  destruct (quiet_normalise json_loads pd_DataFrame kwargs tr) as [Htr He].
  destruct (normalise json_loads pd_DataFrame kwargs tr) as [[kw|v|e] tr1];
    simpl in Htr, He; subst tr1; cbv beta iota.
  - destruct (quiet_validate_required rf kw tr) as [Htr2 He2].
    destruct (validate_required rf kw tr) as [[[]|v|e] tr2];
      simpl in Htr2, He2; subst tr2.
    + left. by exists kw.
    + right. left. destruct (He2 v eq_refl) as [error ->]. by exists error.
    + right. right. by eexists _, _.
  - right. left. destruct (He v eq_refl) as [error ->]. by exists error.
  - right. right. by eexists _, _.
Qed.

(** *** Completeness of the field check *)

Lemma passes_or_fault kwargs field :
  passes kwargs field \/ exists msg, field_fault kwargs field msg.
Proof.
  destruct (kwargs !! field) as [v|] eqn:E.
  - destruct v as [j|f].
    + destruct (is_none (VJson j)) eqn:En.
      * right. destruct j; try discriminate. eexists. by apply EmptyParameter.
      * left. exists (VJson j). by repeat split.
    + destruct (df_empty f) eqn:Ee.
      * right. eexists. by eapply EmptyDataset.
      * left. exists (VFrame f). repeat split; [done|]. by intros ? [= <-].
  - right. eexists. by apply MissingParameter.
Qed.

Lemma first_fault kwargs fields :
  Forall (passes kwargs) fields
  \/ exists pre field post msg,
       fields = (pre ++ field :: post)%list
       /\ Forall (passes kwargs) pre
       /\ field_fault kwargs field msg.
Proof.
  induction fields as [|f fields IH]; [by left|].
  destruct (passes_or_fault kwargs f) as [Hp|[msg Hf]].
  - destruct IH as [IH|(pre & field & post & msg & -> & Hpre & Hf)].
    + left. by constructor.
    + right. exists (f :: pre), field, post, msg. repeat split; [|done].
      by constructor.
  - right. exists [], f, fields, msg. by repeat split.
Qed.

(** Once the parsing steps went through, the wrapped function is entered
    exactly when every required field passes; otherwise the answer is the
    message of the first required field at fault, and nothing is
    recorded. *)
Theorem field_check_complete rf func args kwargs kw tr :
  normalise json_loads pd_DataFrame kwargs tr = (Continue kw, tr) ->
  let result :=
    validate_and_parse_data json_loads pd_DataFrame (Some rf) func
      args kwargs tr in
  (Forall (passes kw) rf /\
   result = guarded (func args kw (tr ++ [EvCall args kw])%list))
  \/ (exists pre field post msg,
        rf = (pre ++ field :: post)%list
        /\ Forall (passes kw) pre
        /\ field_fault kw field msg
        /\ result = (Return (fail_envelope msg), tr)).
Proof.
  intros Hn. simpl. unfold validate_and_parse_data.
  rewrite wrapper_unfold, precheck_normalise, Hn. cbv beta iota.
  destruct (first_fault kw rf) as [Hall|(pre & field & post & msg & -> & Hpre & Hf)].
  - left. split; [done|].
    destruct rf as [|f fields]; [reflexivity|].
    rewrite validate_required_cons.
    by rewrite (check_required_passes _ _ _ Hall).
  - right. exists pre, field, post, msg. repeat split; try done.
    rewrite (validate_required_member (pre ++ field :: post) field)
      by set_solver.
    by rewrite (check_required_first pre field post kw msg tr Hpre Hf).
Qed.

(** *** Faults of the parsing steps *)

Lemma process_data_stable kwargs tr :
  stable (kwargs !! "data") ->
  process_data json_loads pd_DataFrame kwargs tr = (Continue kwargs, tr).
Proof.
  intros Hst. unfold process_data.
  destruct (kwargs !! "data") as [v|] eqn:E; [|reflexivity].
  destruct (is_none v); [reflexivity|].
  unfold bind, parse_data, frame_data. rewrite E.
  destruct v as [[]|]; simpl in *; try done; by rewrite E.
Qed.

Lemma process_words_stable kwargs tr :
  stable (kwargs !! "words") ->
  process_words json_loads kwargs tr = (Continue kwargs, tr).
Proof.
  intros Hst. unfold process_words.
  by destruct (kwargs !! "words") as [[[]|]|].
Qed.

(** When [words] is a text that [json.loads] rejects and the step on
    [data] went through, the call is answered with the word-cloud parse
    failure carrying the parser's diagnostic; nothing is recorded and the
    wrapped function is not entered. *)
Theorem malformed_words_fails rf func args kwargs kw s diagnostic tr :
  process_data json_loads pd_DataFrame kwargs tr = (Continue kw, tr) ->
  kwargs !! "words" = Some (VJson (JStr s)) ->
  json_loads s = Raise (JSONDecodeError diagnostic) ->
  validate_and_parse_data json_loads pd_DataFrame rf func args kwargs tr
  = (Return (fail_envelope ("词云数据解析失败: " ++ diagnostic)), tr).
Proof.
  intros Hd Hw Hbad. unfold validate_and_parse_data.
  rewrite wrapper_unfold, precheck_normalise.
  unfold normalise, bind. rewrite Hd.
  unfold process_words.
  rewrite (process_data_lookup_other _ _ _ _ "words" Hd) by done.
  rewrite Hw. unfold try_except_JSONDecodeError, bind, lift.
  by rewrite Hbad.
Qed.

(** A fault of [pd.DataFrame] on a list given as [data], and any fault of
    [json.loads] on a text given as [data] other than a decode error, is
    logged once and answered with the generic failure dictionary that
    carries the fault's message; the wrapped function is not entered. *)
Theorem library_fault_is_reported rf func args kwargs e tr :
  (exists l, kwargs !! "data" = Some (VJson (JList l))
             /\ pd_DataFrame l = Raise e)
  \/ (exists s msg, kwargs !! "data" = Some (VJson (JStr s))
                    /\ json_loads s = Raise e
                    /\ e = OtherException msg) ->
  validate_and_parse_data json_loads pd_DataFrame rf func args kwargs tr
  = (Return (fail_envelope ("数据处理异常: " ++ exn_str e)),
     (tr ++ [EvLogError ("数据处理错误: " ++ exn_str e)])%list).
Proof.
  intros Hcase. unfold validate_and_parse_data.
  rewrite wrapper_unfold, precheck_normalise.
  assert (Hd : process_data json_loads pd_DataFrame kwargs tr = (Raised e, tr)).
  { unfold process_data.
    destruct Hcase as [(l & Hdata & Hraise)|(s & msg & Hdata & Hraise & ->)];
      rewrite Hdata; simpl; unfold bind, parse_data; rewrite Hdata.
    - simpl. unfold frame_data. rewrite Hdata. unfold bind, lift.
      by rewrite Hraise.
    - unfold try_except_JSONDecodeError, bind, lift. by rewrite Hraise. }
  unfold normalise, bind. by rewrite Hd.
Qed.

(** The parsing steps on a [data] text that [json.loads] accepts. *)
Lemma normalise_text kwargs s j tr :
  kwargs !! "data" = Some (VJson (JStr s)) ->
  stable (kwargs !! "words") ->
  json_loads s = Return j ->
  normalise json_loads pd_DataFrame kwargs tr
  = match j with
    | JList l =>
        match pd_DataFrame l with
        | Return f => (Continue (<["data" := VFrame f]> kwargs), tr)
        | Raise e => (Raised e, tr)
        end
    | _ => (Continue (<["data" := VJson j]> kwargs), tr)
    end.
Proof.
  intros Hdata Hwords Hj.
  assert (Hw : forall v, stable ((<["data" := v]> kwargs) !! "words")).
  { intros v. by rewrite lookup_insert_ne. }
  unfold normalise, bind, process_data. rewrite Hdata. simpl.
  unfold bind, parse_data. rewrite Hdata.
  unfold try_except_JSONDecodeError, bind, lift, ret. rewrite Hj.
  unfold frame_data. rewrite lookup_insert_eq.
  destruct j as [| | | | |l|]; unfold bind, lift, ret;
    try by rewrite (process_words_stable _ _ (Hw _)).
  destruct (pd_DataFrame l) as [f|e]; [|done].
  by rewrite insert_insert_eq, (process_words_stable _ _ (Hw _)).
Qed.


(** A decorator without required fields checks nothing: a call whose
    [data] and [words] are neither text nor lists, [data] missing or
    [None] included, enters the wrapped function with the keyword
    arguments as they came. *)
Theorem no_required_fields_no_check func args kwargs tr :
  stable (kwargs !! "data") ->
  stable (kwargs !! "words") ->
  Forall (fun rf =>
            validate_and_parse_data json_loads pd_DataFrame rf func
              args kwargs tr
            = guarded (func args kwargs (tr ++ [EvCall args kwargs])%list))
         [None; Some []].
Proof.
  intros Hd Hw.
  assert (Hn : normalise json_loads pd_DataFrame kwargs tr
               = (Continue kwargs, tr)).
  { unfold normalise, bind.
    by rewrite (process_data_stable _ _ Hd), (process_words_stable _ _ Hw). }
  repeat constructor; unfold validate_and_parse_data;
    by rewrite wrapper_unfold, precheck_normalise, Hn.
Qed.

End DecoratorMore.

(** *** The further properties on concrete calls *)

Lemma field_check_complete_witness :
  exists pre field post msg,
    ["data"; "x_field"; "y_field"] = (pre ++ field :: post)%list
    /\ field = "x_field"
    /\ validate_and_parse_data Standin.json_loads Standin.DataFrame_of
         (Some ["data"; "x_field"; "y_field"]) spy [] call_without_x []
       = (Return (fail_envelope msg), []).
Proof.
  destruct (field_check_complete Standin.json_loads Standin.DataFrame_of
              ["data"; "x_field"; "y_field"] spy [] call_without_x
              (<["data" := VFrame (mkFrame [JStr "a"] [[JInt 1]])]>
                 call_without_x) [])
    as [[Hall _]|(pre & field & post & msg & Hrf & Hpre & Hf & Hres)].
  - vm_compute. reflexivity.
  - exfalso. apply Forall_cons in Hall as [_ Hall].
    apply Forall_cons in Hall as [(v & Hv & _) _]. discriminate Hv.
  - exists pre, field, post, msg. split; [exact Hrf|]. split; [|exact Hres].
    destruct pre as [|p0 pre]; simpl in Hrf.
    + injection Hrf as <- _. exfalso.
      inversion Hf as [H|H|f H He]; try discriminate H.
      vm_compute in H. injection H as <-. discriminate He.
    + injection Hrf as <- Hrf. destruct pre as [|p1 pre]; simpl in Hrf.
      * by injection Hrf as <- _.
      * injection Hrf as <- Hrf. exfalso.
        apply Forall_cons in Hpre as [_ Hpre].
        apply Forall_cons in Hpre as [(v & Hv & _) _]. discriminate Hv.
Defined.

Lemma normalise_keeps_arguments_witness :
  dom (<["data" := VFrame frame_ab]> call_ab) = dom call_ab
  /\ (forall k, k <> "data" -> k <> "words" ->
        (<["data" := VFrame frame_ab]> call_ab) !! k = call_ab !! k)
  /\ (forall l, (<["data" := VFrame frame_ab]> call_ab) !! "data"
               <> Some (VJson (JList l)))
  /\ @nil event = [].
Proof.
  apply (normalise_keeps_arguments Standin.json_loads Standin.DataFrame_of
           call_ab _ [] []).
  vm_compute. reflexivity.
Defined.

Lemma malformed_words_fails_witness :
  validate_and_parse_data Standin.json_loads Standin.DataFrame_of
    None spy [] {[ "words" := VJson (JStr "[oops") ]} []
  = (Return (fail_envelope "词云数据解析失败: Expecting value"), []).
Proof.
  apply (malformed_words_fails Standin.json_loads Standin.DataFrame_of
           None spy [] {[ "words" := VJson (JStr "[oops") ]}
           {[ "words" := VJson (JStr "[oops") ]} "[oops" "Expecting value").
  - reflexivity.
  - reflexivity.
  - vm_compute. reflexivity.
Defined.

Lemma library_fault_is_reported_witness :
  validate_and_parse_data Standin.json_loads Standin.DataFrame_of
    (Some ["data"]) spy []
    {[ "data" := VJson (JList [JDict [("a", JInt 1)]; JInt 2]) ]} []
  = (Return (fail_envelope
               "数据处理异常: 'int' object has no attribute 'keys'"),
     [EvLogError "数据处理错误: 'int' object has no attribute 'keys'"]).
Proof.
  apply (library_fault_is_reported Standin.json_loads Standin.DataFrame_of
           (Some ["data"]) spy []
           {[ "data" := VJson (JList [JDict [("a", JInt 1)]; JInt 2]) ]}
           (OtherException "'int' object has no attribute 'keys'") []).
  left. exists [JDict [("a", JInt 1)]; JInt 2]. split; reflexivity.
Defined.


Lemma no_required_fields_no_check_witness :
  validate_and_parse_data Standin.json_loads Standin.DataFrame_of
    None spy [] {[ "data" := VJson JNone ]} []
  = (Return (ok_envelope "http://127.0.0.1:8081/spy.png" "ok"),
     [EvCall [] {[ "data" := VJson JNone ]}]).
Proof.
  pose proof (no_required_fields_no_check Standin.json_loads
                Standin.DataFrame_of spy [] {[ "data" := VJson JNone ]} [])
    as H.
  apply Forall_cons in H as [H _]; [exact H | exact I | exact I].
Defined.

(* ===================================================================== *)
(** ** File names, image addresses and the image server *)
(* ===================================================================== *)

Lemma chars_app (a b : string) :
  list_ascii_of_string (a ++ b)
  = (list_ascii_of_string a ++ list_ascii_of_string b)%list.
Proof. induction a as [|c a IH]; simpl; [reflexivity | by rewrite IH]. Qed.

Lemma chars_length (s : string) :
  length (list_ascii_of_string s) = String.length s.
Proof. induction s as [|c s IH]; simpl; [reflexivity | by rewrite IH]. Qed.

Lemma string_of_chars_app (l k : list ascii) :
  string_of_list_ascii (l ++ k)
  = string_of_list_ascii l ++ string_of_list_ascii k.
Proof. induction l as [|c l IH]; simpl; [reflexivity | by rewrite IH]. Qed.

(** The characters [basename] drops end with the last slash. *)
Lemma basename_chars (p : string) :
  exists n,
    list_ascii_of_string (basename p) = drop n (list_ascii_of_string p)
    /\ forall k suffix,
         list_ascii_of_string p = (k ++ suffix)%list ->
         "/"%char ∉ suffix ->
         (n <= length k)%nat.
Proof.
  unfold basename, py_rfind.
  rewrite list_ascii_of_string_of_list_ascii, <- chars_length.
  set (l := list_ascii_of_string p).
  destruct (list_find (fun x => x = "/"%char) (reverse l)) as [[i x]|] eqn:E.
  - exists (length l - i)%nat.
    apply list_find_Some in E as (Hi & -> & Hbefore).
    pose proof (lookup_lt_Some _ _ _ Hi) as Hlt. rewrite length_reverse in Hlt.
    split; [f_equal; lia|].
    intros k suffix Hl Hno.
    destruct (decide (i < length suffix)%nat) as [Hin|Hout]; [|
      rewrite Hl, length_app; lia].
    exfalso. apply Hno.
    rewrite Hl, reverse_app, lookup_app_l in Hi
      by (rewrite length_reverse; lia).
    apply list_elem_of_lookup_2 in Hi. by rewrite elem_of_reverse in Hi.
  - exists 0%nat. split; [reflexivity | intros; lia].
Qed.

Lemma basename_keeps_suffix (p suffix : string) :
  "/"%char ∉ list_ascii_of_string suffix ->
  py_endswith p suffix = true ->
  py_endswith (basename p) suffix = true.
Proof.
  unfold py_endswith. intros Hno Hend.
  apply bool_decide_eq_true in Hend as [k Hk].
  apply bool_decide_eq_true.
  destruct (basename_chars p) as (n & -> & Hn).
  specialize (Hn k _ Hk Hno).
  exists (drop n k). by rewrite Hk, drop_app_le.
Qed.

Lemma basename_of_joined (dir name : string) :
  "/"%char ∉ list_ascii_of_string name ->
  basename (dir ++ "/" ++ name) = name.
Proof.
  intros Hno. unfold basename, py_rfind.
  rewrite <- chars_length, !chars_app. simpl.
  set (d := list_ascii_of_string dir). set (f := list_ascii_of_string name).
  assert (Hfind : list_find (fun x => x = "/"%char)
                    (reverse (d ++ "/"%char :: f))
                  = Some (length f, "/"%char)).
  { apply list_find_Some. rewrite reverse_app, reverse_cons, <- app_assoc.
    split; [|split; [reflexivity|]].
    - rewrite lookup_app_r by (rewrite length_reverse; lia).
      by rewrite length_reverse, Nat.sub_diag.
    - intros j y Hj Hlt ->. apply Hno.
      rewrite lookup_app_l in Hj by (rewrite length_reverse; lia).
      apply list_elem_of_lookup_2 in Hj. by rewrite elem_of_reverse in Hj. }
  rewrite Hfind, length_app. simpl.
  replace (Z.to_nat (Z.of_nat (length d + S (length f)) - 1
                     - Z.of_nat (length f) + 1))
    with (length (d ++ ["/"%char])) by (rewrite length_app; simpl; lia).
  replace (d ++ "/"%char :: f)%list with ((d ++ ["/"%char]) ++ f)%list
    by by rewrite <- app_assoc.
  rewrite drop_app_length. apply string_of_list_ascii_of_string.
Qed.

(** Closes [x ∉ l] for a list and an element given in full. *)
Ltac not_in_list :=
  simpl; rewrite ?not_elem_of_cons; repeat split;
  try discriminate; apply not_elem_of_nil.

Lemma filter_all_pass {A} (P : A -> Prop) `{forall x, Decision (P x)}
    (l : list A) :
  Forall P l -> filter P l = l.
Proof.
  induction 1 as [|x l Hx _ IH]; [reflexivity|].
  by rewrite filter_cons_True, IH.
Qed.

Lemma endswith_app (a suffix : string) : py_endswith (a ++ suffix) suffix = true.
Proof.
  unfold py_endswith. apply bool_decide_eq_true.
  exists (list_ascii_of_string a). apply chars_app.
Qed.

Lemma endswith_app_r (a b suffix : string) :
  py_endswith b suffix = true -> py_endswith (a ++ b) suffix = true.
Proof.
  unfold py_endswith. intros H. apply bool_decide_eq_true in H.
  apply bool_decide_eq_true. rewrite chars_app. by apply suffix_app_r.
Qed.

(** Whatever the UUID text is, the generated name is the chart type, the
    date and an identifier joined by underscores and followed by a dot
    and the extension; the identifier has at most nine characters, none
    of them a dash, and the name ends with the dot and the extension. *)
Theorem unique_filename_shape (timestamp uuid4 chart_type extension : string) :
  exists unique_id,
    generate_unique_filename timestamp uuid4 chart_type extension
    = chart_type ++ "_" ++ timestamp ++ "_" ++ unique_id ++ "." ++ extension
    /\ (String.length unique_id <= 9)%nat
    /\ ("-"%char ∉ list_ascii_of_string unique_id)
    /\ py_endswith
         (generate_unique_filename timestamp uuid4 chart_type extension)
         ("." ++ extension) = true.
Proof.
  exists (py_str_prefix 9 (py_remove_char "-" uuid4)).
  split; [reflexivity|]. split; [|split].
  - unfold py_str_prefix. rewrite <- chars_length.
    rewrite list_ascii_of_string_of_list_ascii, length_take. lia.
  - unfold py_str_prefix, py_remove_char.
    rewrite !list_ascii_of_string_of_list_ascii.
    intros Hin. apply elem_of_take in Hin as (i & Hin & _).
    apply list_elem_of_lookup_2 in Hin.
    apply list_elem_of_filter in Hin as [Hne _]. done.
  - unfold generate_unique_filename.
    do 5 apply endswith_app_r. apply (endswith_app EmptyString).
Qed.

(** For a UUID text in the usual form, eight characters, a dash, and more
    characters, the identifier is made of the first eight characters and
    the first character after the dash. *)
Theorem unique_id_of_uuid timestamp chart_type extension
    (group1 : string) (c : ascii) (rest : string) :
  String.length group1 = 8%nat ->
  "-"%char ∉ list_ascii_of_string group1 ->
  c <> "-"%char ->
  generate_unique_filename timestamp (group1 ++ "-" ++ String c rest)
    chart_type extension
  = chart_type ++ "_" ++ timestamp ++ "_" ++ (group1 ++ String c EmptyString)
    ++ "." ++ extension.
Proof.
  intros Hlen Hno Hc. unfold generate_unique_filename. do 4 f_equal.
  unfold py_str_prefix, py_remove_char.
  rewrite list_ascii_of_string_of_list_ascii, !chars_app. simpl.
  rewrite filter_app, filter_cons_False by (intros H; by apply H).
  rewrite filter_cons_True by done.
  rewrite filter_all_pass.
  2:{ apply Forall_forall. intros x Hx ->. by apply Hno. }
  rewrite <- chars_length in Hlen.
  rewrite (take_app_add' _ _ 8 1) by done. simpl.
  rewrite take_0, string_of_chars_app, string_of_list_ascii_of_string.
  reflexivity.
Qed.

Lemma unique_id_of_uuid_witness :
  generate_unique_filename "20240131"
    "3f2b8c1e-7a44-4d0b-9c55-0123456789ab" "line" "png"
  = "line_20240131_3f2b8c1e7.png".
Proof.
  apply (unique_id_of_uuid "20240131" "line" "png" "3f2b8c1e" "7"
           "a44-4d0b-9c55-0123456789ab").
  - reflexivity.
  - not_in_list.
  - discriminate.
Defined.

(** The address returned for a generated picture is one the image server
    serves: it is the fixed base address followed by a name, the request
    path for that name ends with [.png], and [do_GET] hands the request
    to the file handler instead of answering 404.  When the generated
    name holds no slash, the name in the address is the generated name. *)
Theorem generated_url_is_served (images_dir timestamp uuid4 chart_type : string) :
  let filename := generate_unique_filename timestamp uuid4 chart_type "png" in
  let url := generate_image_url (image_filepath images_dir filename) in
  exists name,
    url = "http://127.0.0.1:8081/" ++ name
    /\ do_GET ("/" ++ name) = [SuperDoGET]
    /\ ("/"%char ∉ list_ascii_of_string filename -> name = filename).
Proof.
  simpl.
  set (filename := generate_unique_filename timestamp uuid4 chart_type "png").
  exists (basename (image_filepath images_dir filename)).
  split; [reflexivity|]. split.
  - unfold do_GET.
    assert (Hend : py_endswith filename ".png" = true).
    { unfold filename, generate_unique_filename.
      do 5 apply endswith_app_r. apply (endswith_app EmptyString). }
    assert (Hbase : py_endswith (basename (image_filepath images_dir filename))
                      ".png" = true).
    { apply basename_keeps_suffix.
      - not_in_list.
      - unfold image_filepath. by do 2 apply endswith_app_r. }
    by rewrite (endswith_app_r "/" _ _ Hbase).
  - intros Hno. by apply basename_of_joined.
Qed.

(** A request whose path does not end with [.png] never reaches the file
    handler: it is answered with status 404, and the three cross-origin
    headers are sent before the header block is closed. *)
Theorem other_paths_are_rejected (path : string) :
  py_endswith path ".png" = false ->
  (SuperDoGET ∉ do_GET path)
  /\ exists before after,
       do_GET path
       = (SendResponse 404 :: before
          ++ [ SendHeader "Access-Control-Allow-Origin" "*";
               SendHeader "Access-Control-Allow-Methods" "GET, OPTIONS";
               SendHeader "Access-Control-Allow-Headers" "Content-Type";
               SuperEndHeaders ] ++ after)%list
       /\ SuperEndHeaders ∉ before.
Proof.
  intros Hend. unfold do_GET. rewrite Hend. simpl. split.
  - rewrite !not_elem_of_cons. repeat split; try discriminate.
    apply not_elem_of_nil.
  - eexists [_], [_]. split; [reflexivity|].
    rewrite !not_elem_of_cons. split; [discriminate | apply not_elem_of_nil].
Qed.

Lemma other_paths_are_rejected_witness :
  SuperDoGET ∉ do_GET "/line_20240131_3f2b8c1e7.png?size=2".
Proof.
  apply (other_paths_are_rejected "/line_20240131_3f2b8c1e7.png?size=2").
  vm_compute. reflexivity.
Defined.

(** *** The tools' properties on concrete calls *)

Lemma pie_ignores_palette_name_witness :
  (pie_colors ["#8dd3c7"; "#ffffb3"] ["#66c5cc"] ["#e58606"] ["#7f3c8d"]
              ["#636efa"] ["#aa0dfe"] (Some "neon") (Some "sunset")
              (Some "sales")).1
  = ["#8dd3c7"; "#ffffb3"].
Proof.
  destruct (pie_ignores_palette_name ["#8dd3c7"; "#ffffb3"] ["#66c5cc"]
              ["#e58606"] ["#7f3c8d"] ["#636efa"] ["#aa0dfe"]
              (Some "neon") "sunset") as (_ & _ & Hunknown).
  apply Hunknown. vm_compute. reflexivity.
Defined.

Lemma dual_axes_colors_chosen_witness :
  palette_of (get_elegant_color (Some "dual_axes") None (Some "comparison"))
  = violet
  /\ dual_axes_colors (Some "#112233") None None (Some "comparison")
     = ("#112233", "#7B68EE").
Proof.
  destruct (dual_axes_colors_chosen None (Some "comparison"))
    as (_ & _ & _ & Hfirst & _ & _ & Hviolet).
  split.
  - apply Hviolet; [reflexivity|]. intros d [= <-]. not_in_list.
  - exact (Hfirst "#112233").
Defined.


Lemma fishbone_first_six_witness :
  fishbone_bones (["a"; "b"; "c"; "d"; "e"; "f"] ++ ["g"; "h"])
  = fishbone_bones ["a"; "b"; "c"; "d"; "e"; "f"].
Proof.
  destruct (fishbone_first_six ["a"; "b"; "c"; "d"; "e"; "f"])
    as (bones & _ & _ & _ & _ & Hmore).
  apply Hmore. simpl. lia.
Defined.

Lemma generated_url_is_served_witness :
  generate_image_url
    (image_filepath "/srv/chart/images"
       (generate_unique_filename "20240131"
          "3f2b8c1e-7a44-4d0b-9c55-0123456789ab" "line" "png"))
  = "http://127.0.0.1:8081/line_20240131_3f2b8c1e7.png".
Proof.
  destruct (generated_url_is_served "/srv/chart/images" "20240131"
              "3f2b8c1e-7a44-4d0b-9c55-0123456789ab" "line")
    as (name & Hurl & _ & Hname).
  rewrite Hurl, Hname; [reflexivity|].
  vm_compute list_ascii_of_string. not_in_list.
Defined.

(* ===================================================================== *)
(** ** The first fault decides, and what leaves the decorator *)
(* ===================================================================== *)

(** C6, as stated, fails for a required field that is not the first at
    fault: with the required fields [data] and [x_field] both absent from
    the call, the answer is the message for [data], and [x_field] is not
    named in it. *)
Lemma later_field_is_not_named :
  validate_and_parse_data Standin.json_loads Standin.DataFrame_of
    (Some ["data"; "x_field"]) spy [] ∅ []
  = (Return (fail_envelope "参数 'data' 是必需的"), [])
  /\ "x_field" ∈ ["data"; "x_field"]
  /\ (∅ : gmap string value) !! "x_field" = None
  /\ py_contains "x_field" "参数 'data' 是必需的" = false.
Proof.
  split; [vm_compute; reflexivity|]. split; [repeat constructor|].
  split; reflexivity.
Qed.

Section DecoratorAnyProperties.

Variable json_loads : string -> outcome json.
Variable pd_DataFrame : list json -> outcome DataFrame.

(** The generic failure of lines 370-375. *)
Lemma wrapper_any_unfold rf func args kwargs tr :
  wrapper_any json_loads pd_DataFrame rf func args kwargs tr =
  match precheck json_loads pd_DataFrame rf kwargs tr with
  | (Continue kw, tr') =>
      match func args kw (tr' ++ [EvCall args kw])%list with
      | (Returned v, tr'') => (Returned v, tr'')
      | (Raising (IsException e), tr'') =>
          (Returned (fail_envelope ("数据处理异常: " ++ exn_str e)),
           (tr'' ++ [EvLogError ("数据处理错误: " ++ exn_str e)])%list)
      | (Raising (BaseOnly class_name msg), tr'') =>
          (Raising (BaseOnly class_name msg), tr'')
      end
  | (ReturnEarly v, tr') => (Returned v, tr')
  | (Raised e, tr') =>
      (Returned (fail_envelope ("数据处理异常: " ++ exn_str e)),
       (tr' ++ [EvLogError ("数据处理错误: " ++ exn_str e)])%list)
  end.
Proof.
  unfold wrapper_any, precheck, run_body_any, try_except_Exception_any,
    bind_any, of_M, call_any, returning, bind, log_error, ret.
  destruct (process_data _ _ kwargs tr) as [[kw1|v|e] tr1]; try reflexivity.
  destruct (process_words _ kw1 tr1) as [[kw2|v|e] tr2]; try reflexivity.
  destruct (validate_required rf kw2 tr2) as [[[]|v|e] tr3]; try reflexivity.
  destruct (func args kw2 _) as [[v|[e|c m]] tr4]; reflexivity.
Qed.

(** On a wrapped function that raises instances of [Exception] only, the
    two embeddings of [wrapper] agree. *)
Lemma wrapper_any_agrees rf (func : callable) args kwargs tr :
  wrapper_any json_loads pd_DataFrame rf (as_body func) args kwargs tr
  = as_result (wrapper json_loads pd_DataFrame rf func args kwargs tr).
Proof.
  rewrite wrapper_any_unfold, wrapper_unfold.
  destruct (precheck _ _ rf kwargs tr) as [[kw|v|e] tr1]; try reflexivity.
  unfold as_body. by destruct (func args kw _) as [[v|e] tr2].
Qed.


End DecoratorAnyProperties.


